(** * Certificate endpoint of acme-dns-tools: model and properties

    A shallow embedding of [internal/api/certs.go]: the handler
    [CertsHandler] and the FCrDNS verifier [isAllowedByFCrDNS], together with
    the parts of Go's standard library they call ([strings], [path/filepath],
    [net], [net/http], [os]).

    Go strings are byte sequences and are modelled by [string] (a list of
    8-bit [ascii] characters); Go's [int] is modelled by [Z]. *)

From Stdlib Require Import ZArith Ascii String Lia.
From stdpp Require Import base option list strings gmap.

Local Open Scope string_scope.
Local Open Scope Z_scope.

(* stdpp freezes [String.append] under [simpl]; the proofs below unfold it. *)
#[local] Arguments String.append !_ _ / : simpl nomatch.

(** ** Byte strings: length and slices *)

(** [len(s)] *)
Definition len (s : string) : Z := Z.of_nat (String.length s).

Fixpoint str_take (n : nat) (s : string) : string :=
  match n, s with
  | S n', String c s' => String c (str_take n' s')
  | _, _ => ""
  end.

Fixpoint str_drop (n : nat) (s : string) : string :=
  match n, s with
  | S n', String _ s' => str_drop n' s'
  | _, _ => s
  end.

(** [s[:j]] and [s[i:]] for indices in range (all uses below are). *)
Definition sliceTo (s : string) (j : Z) : string := str_take (Z.to_nat j) s.
Definition sliceFrom (s : string) (i : Z) : string := str_drop (Z.to_nat i) s.
(** [s[i:j]] *)
Definition slice (s : string) (i j : Z) : string := sliceTo (sliceFrom s i) (j - i).

(** [s[i]], as an optional byte ([None] out of range, where Go panics). *)
Definition byteAt (s : string) (i : Z) : option ascii :=
  if i <? 0 then None else String.get (Z.to_nat i) s.

(** ** Package [strings] *)

Module strings.

(** [func HasPrefix(s, prefix string) bool]:
    [len(s) >= len(prefix) && s[:len(prefix)] == prefix] *)
Definition HasPrefix (s prefix : string) : bool :=
  (len prefix <=? len s) && bool_decide (sliceTo s (len prefix) = prefix).

(** [func HasSuffix(s, suffix string) bool]:
    [len(s) >= len(suffix) && s[len(s)-len(suffix):] == suffix] *)
Definition HasSuffix (s suffix : string) : bool :=
  (len suffix <=? len s) && bool_decide (sliceFrom s (len s - len suffix) = suffix).

(** [func TrimPrefix(s, prefix string) string] *)
Definition TrimPrefix (s prefix : string) : string :=
  if HasPrefix s prefix then sliceFrom s (len prefix) else s.

(** [func TrimSuffix(s, suffix string) string] *)
Definition TrimSuffix (s suffix : string) : string :=
  if HasSuffix s suffix then sliceTo s (len s - len suffix) else s.

(** [func Index(s, substr string) int]: the index of the first instance of
    [substr] in [s], or [-1]. *)
Fixpoint Index (s substr : string) : Z :=
  if HasPrefix s substr then 0
  else match s with
       | "" => -1
       | String _ s' => let i := Index s' substr in
                        if i <? 0 then -1 else i + 1
       end.

(** [func Contains(s, substr string) bool]: [Index(s, substr) >= 0] *)
Definition Contains (s substr : string) : bool := 0 <=? Index s substr.

(** The loop of [genSplit]: at most [n] cuts at [sep], the rest of the
    string is the last piece. *)
Fixpoint genSplitLoop (n : nat) (s sep : string) : list string :=
  match n with
  | O => [s]
  | S n' => let m := Index s sep in
            if m <? 0 then [s]
            else sliceTo s m :: genSplitLoop n' (sliceFrom s (m + len sep)) sep
  end.

(** [func SplitN(s, sep string, n int) []string], for a non-empty [sep]
    (the program only splits at ["/"]); [n < 0] means all pieces. *)
Definition SplitN (s sep : string) (n : Z) : list string :=
  if n =? 0 then []
  else
    let n := if (n <? 0) || (len s + 1 <? n) then len s + 1 else n in
    genSplitLoop (Z.to_nat (n - 1)) s sep.

(** [func Join(elems []string, sep string) string] *)
Fixpoint Join (elems : list string) (sep : string) : string :=
  match elems with
  | [] => ""
  | [e] => e
  | e :: rest => e +:+ sep +:+ Join rest sep
  end.

(** [func EqualFold(s, t string) bool]: equality under Unicode simple case
    folding.  The folding tables of package [unicode] are not part of this
    development: the function is a parameter of everything that calls it. *)
Class Folding := { EqualFold : string -> string -> bool }.

(** The restriction of the folding to ASCII letters, the instance of the
    examples (host names are ASCII). *)
Definition lowerASCII (c : ascii) : ascii :=
  let n := N_of_ascii c in
  if (65 <=? n)%N && (n <=? 90)%N then ascii_of_N (n + 32) else c.

Fixpoint mapBytes (f : ascii -> ascii) (s : string) : string :=
  match s with
  | "" => ""
  | String c s' => String (f c) (mapBytes f s')
  end.

Definition asciiFolding : Folding :=
  {| EqualFold s t := bool_decide (mapBytes lowerASCII s = mapBytes lowerASCII t) |}.

End strings.

(** ** Package [path/filepath] (Unix) *)

Module filepath.

(** The elements of a path: the pieces between separators. *)
Fixpoint elements (path : string) : list string :=
  match path with
  | "" => [""]
  | String c rest =>
      if bool_decide (c = "/"%char) then "" :: elements rest
      else match elements rest with
           | e :: es => String c e :: es
           | [] => [String c ""]
           end
  end.

(** The output buffer of [Clean], read as a list of elements: the number of
    leading [..] elements that cannot be removed ([dotdot] in the Go code
    marks where they end) and the names written after them, last first. *)
Record lazybuf := { dotdots : nat; names : list string }.

(** One turn of the loop of [Clean], for one element:
    - an empty element or [.] is dropped;
    - [..] removes the last name when there is one ("can backtrack"), is
      dropped at the root, and is kept in front otherwise;
    - a real element is appended. *)
Definition cleanElement (rooted : bool) (out : lazybuf) (e : string) : lazybuf :=
  if bool_decide (e = "") || bool_decide (e = ".") then out
  else if bool_decide (e = "..") then
    match names out with
    | _ :: below => {| dotdots := dotdots out; names := below |}
    | [] => if rooted then out
            else {| dotdots := S (dotdots out); names := [] |}
    end
  else {| dotdots := dotdots out; names := e :: names out |}.

(** The string held by the buffer; an empty relative path is [.]. *)
Definition bufString (rooted : bool) (out : lazybuf) : string :=
  let els := (replicate (dotdots out) ".." ++ reverse (names out))%list in
  if rooted then "/" +:+ strings.Join els "/"
  else match els with
       | [] => "."
       | _ => strings.Join els "/"
       end.

(** [func Clean(path string) string]: the shortest path name equivalent to
    [path] by purely lexical processing. *)
Definition Clean (path : string) : string :=
  if bool_decide (path = "") then "."
  else
    let rooted := bool_decide (byteAt path 0 = Some "/"%char) in
    bufString rooted
      (foldl (cleanElement rooted) {| dotdots := 0; names := [] |} (elements path)).

(** [func Join(elem ...string) string]: empty elements in front are ignored,
    the rest is joined with separators and cleaned. *)
Fixpoint Join (elem : list string) : string :=
  match elem with
  | [] => ""
  | e :: rest =>
      if bool_decide (e = "") then Join rest
      else Clean (strings.Join (e :: rest) "/")
  end.

End filepath.

(** ** Package [net]: splitting a peer address *)

Module net.

(** [bytealg.IndexByteString] and [bytealg.LastIndexByteString] *)
Fixpoint IndexByteString (s : string) (c : ascii) : Z :=
  match s with
  | "" => -1
  | String a s' =>
      if bool_decide (a = c) then 0
      else let i := IndexByteString s' c in
           if i <? 0 then -1 else i + 1
  end.

Fixpoint LastIndexByteString (s : string) (c : ascii) : Z :=
  match s with
  | "" => -1
  | String a s' =>
      let i := LastIndexByteString s' c in
      if 0 <=? i then i + 1
      else if bool_decide (a = c) then 0 else -1
  end.

Record AddrError := { Err : string; Addr : string }.

Definition missingPort : string := "missing port in address".
Definition tooManyColons : string := "too many colons in address".

(** [func SplitHostPort(hostport string) (host, port string, err error)]:
    [inl (host, port)] when [err == nil]. *)
Definition SplitHostPort (hostport : string) : (string * string) + AddrError :=
  let addrErr (why : string) : (string * string) + AddrError :=
    inr {| Err := why; Addr := hostport |} in
  (* The port starts after the last colon. *)
  let i := LastIndexByteString hostport ":" in
  if i <? 0 then addrErr missingPort
  else
    (* host, j, k; or the reason of an early return *)
    let front : (string * Z * Z) + string :=
      if bool_decide (byteAt hostport 0 = Some "["%char) then
        (* Expect the first ']' just before the last ':'. *)
        let end_ := IndexByteString hostport "]" in
        if end_ <? 0 then inr "missing ']' in address"
        else if end_ + 1 =? len hostport then inr missingPort
        else if end_ + 1 =? i then inl (slice hostport 1 end_, 1, end_ + 1)
        else if bool_decide (byteAt hostport (end_ + 1) = Some ":"%char)
             then inr tooManyColons
             else inr missingPort
      else
        let host := sliceTo hostport i in
        if 0 <=? IndexByteString host ":" then inr tooManyColons
        else inl (host, 0, 0)
    in
    match front with
    | inr why => addrErr why
    | inl (host, j, k) =>
        if 0 <=? IndexByteString (sliceFrom hostport j) "[" then
          addrErr "unexpected '[' in address"
        else if 0 <=? IndexByteString (sliceFrom hostport k) "]" then
          addrErr "unexpected ']' in address"
        else inl (host, sliceFrom hostport (i + 1))
    end.

End net.

(** ** Package [net/http]: requests, responses, [http.Error] *)

Module http.

Definition StatusOK : Z := 200.
Definition StatusBadRequest : Z := 400.
Definition StatusUnauthorized : Z := 401.
Definition StatusForbidden : Z := 403.
Definition StatusNotFound : Z := 404.
Definition StatusInternalServerError : Z := 500.

(** [type Header map[string][]string], keyed by canonical header names. *)
Abbreviation Header := (gmap string (list string)).

(** [func (h Header) Get(key string) string]: the first value of the key,
    or the empty string.  The keys used by the program ("Authorization",
    "Content-Type") are in canonical form already. *)
Definition Get (h : Header) (key : string) : string :=
  match h !! key with
  | Some (v :: _) => v
  | _ => ""
  end.

(** [func (h Header) Set(key, value string)] *)
Definition Set_ (h : Header) (key value : string) : Header :=
  <[key := [value]]> h.

(** The fields of [*http.Request] a handler of this server can look at. *)
Record Request := {
  Method : string;
  URLPath : string;          (* r.URL.Path *)
  ReqHeader : Header;        (* r.Header *)
  RemoteAddr : string;
}.

(** What a handler has written to its [http.ResponseWriter]. *)
Record Response := {
  StatusCode : Z;
  RespHeader : Header;
  Body : string;
}.

(** [func Error(w ResponseWriter, error string, code int)] on a fresh
    writer: plain-text headers, the code, and the message with a newline. *)
Definition Error (error : string) (code : Z) : Response :=
  {| StatusCode := code;
     RespHeader :=
       Set_ (Set_ (delete "Content-Length" (∅ : Header))
                  "Content-Type" "text/plain; charset=utf-8")
            "X-Content-Type-Options" "nosniff";
     Body := error +:+ String "010"%char "" |}.

End http.


(** ** The world outside the process: resolver and file system *)

(** The error of [os.ReadFile]; [os.IsNotExist(err)] reads the flag. *)
Record PathError := { IsNotExist : bool; ErrText : string }.

(** The resolver and the file system, as the answers they give during one
    request: [inl value] when [err == nil] and [inr err] otherwise.  A query
    repeated within the request gets the same answer. *)
Record World := {
  LookupAddr : string -> list string + string;   (* net.LookupAddr *)
  LookupHost : string -> list string + string;   (* net.LookupHost *)
  ReadFile : string -> string + PathError;       (* os.ReadFile *)
}.

(** The lines the handler writes with [log.Printf]. *)
Inductive LogLine :=
| LogCannotParse (remoteAddr : string) (err : net.AddrError)
| LogDenied (clientIP : string)
| LogReadFailed (certPath : string) (err : PathError)
| LogServed (certPath clientIP : string).

(** What a run does to the outside, in order. *)
Inductive Event :=
| EvLookupAddr (addr : string)
| EvLookupHost (host : string)
| EvReadFile (name : string)
| EvLog (line : LogLine).

(** Computations that query the world and record what they did. *)
Definition IO (A : Type) : Type := World -> A * list Event.

#[export] Instance IO_ret : MRet IO := fun A a _ => (a, []).
#[export] Instance IO_bind : MBind IO := fun A B f m w =>
  let '(a, t1) := m w in
  let '(b, t2) := f a w in
  (b, (t1 ++ t2)%list).

Definition netLookupAddr (addr : string) : IO (list string + string) :=
  fun w => (LookupAddr w addr, [EvLookupAddr addr]).
Definition netLookupHost (host : string) : IO (list string + string) :=
  fun w => (LookupHost w host, [EvLookupHost host]).
Definition osReadFile (name : string) : IO (string + PathError) :=
  fun w => (ReadFile w name, [EvReadFile name]).
Definition logPrintf (line : LogLine) : IO unit :=
  fun _ => (tt, [EvLog line]).

(** ** Package [api]: [certs.go] *)

(** [allowedCertFiles] lists the only file names that may be served. *)
Definition allowedCertFiles : gmap string bool :=
  <["fullchain.pem" := true]>
  (<["privkey.pem" := true]>
  (<["cert.pem" := true]>
  (<["chain.pem" := true]> ∅))).

(** [allowedCertFiles[fileName]]: a missing key reads as [false]. *)
Definition allowedCertFile (fileName : string) : bool :=
  default false (allowedCertFiles !! fileName).

Section api.
Context `{!strings.Folding}.

(** [for _, addr := range addrs { if addr == clientIP { return true } }] *)
Fixpoint addrsLoop (clientIP : string) (addrs : list string) : bool :=
  match addrs with
  | [] => false
  | addr :: rest =>
      if bool_decide (addr = clientIP) then true else addrsLoop clientIP rest
  end.

(** [for _, allowed := range allowlist { ... }] for one hostname; [true]
    stands for the [return true] of the function. *)
Fixpoint allowlistLoop (clientIP hostname : string) (allowlist : list string)
  : IO bool :=
  match allowlist with
  | [] => mret false
  | allowed :: rest =>
      if negb (strings.EqualFold hostname allowed) then
        allowlistLoop clientIP hostname rest
      else
        (* Forward-confirm: resolve the allowed hostname *)
        res ← netLookupHost hostname;
        match res with
        | inr _ => allowlistLoop clientIP hostname rest
        | inl addrs =>
            if addrsLoop clientIP addrs then mret true
            else allowlistLoop clientIP hostname rest
        end
  end.

(** [for _, ptr := range ptrs { ... }] *)
Fixpoint ptrsLoop (clientIP : string) (allowlist ptrs : list string) : IO bool :=
  match ptrs with
  | [] => mret false
  | ptr :: rest =>
      (* net.LookupAddr returns FQDNs with a trailing dot *)
      let hostname := strings.TrimSuffix ptr "." in
      found ← allowlistLoop clientIP hostname allowlist;
      if found : bool then mret true else ptrsLoop clientIP allowlist rest
  end.

(** [func isAllowedByFCrDNS(clientIP string, allowlist []string) bool] *)
Definition isAllowedByFCrDNS (clientIP : string) (allowlist : list string)
  : IO bool :=
  if bool_decide (length allowlist = 0%nat) then mret false
  else
    (* Reverse lookup *)
    res ← netLookupAddr clientIP;
    match res with
    | inr _ => mret false
    | inl ptrs =>
        if bool_decide (length ptrs = 0%nat) then mret false
        else ptrsLoop clientIP allowlist ptrs
    end.

(** The response of the success path: the header set by the handler, status
    200 and the bytes of the file. *)
Definition pemResponse (data : string) : http.Response :=
  {| http.StatusCode := http.StatusOK;
     http.RespHeader := http.Set_ ∅ "Content-Type" "application/x-pem-file";
     http.Body := data |}.

(** [func CertsHandler(bearerToken string, dnsAllowlist []string,
    certsBaseDir string) http.HandlerFunc], applied to a request. *)
Definition CertsHandler (bearerToken : string) (dnsAllowlist : list string)
    (certsBaseDir : string) (r : http.Request) : IO http.Response :=
  (* --- Bearer token --- *)
  if bool_decide (http.Get (http.ReqHeader r) "Authorization"
                  ≠ "Bearer " +:+ bearerToken) then
    mret (http.Error "Unauthorized" http.StatusUnauthorized)
  else
  (* --- FCrDNS allowlist --- *)
  match net.SplitHostPort (http.RemoteAddr r) with
  | inr err =>
      logPrintf (LogCannotParse (http.RemoteAddr r) err);;
      mret (http.Error "Forbidden" http.StatusForbidden)
  | inl (clientIP, _) =>
  allowed ← isAllowedByFCrDNS clientIP dnsAllowlist;
  if negb allowed then
    logPrintf (LogDenied clientIP);;
    mret (http.Error "Forbidden" http.StatusForbidden)
  else
  (* --- Parse /certs/{domain}/{file} --- *)
  let trimmed := strings.TrimPrefix (http.URLPath r) "/certs/" in
  let parts := strings.SplitN trimmed "/" 2 in
  if bool_decide (length parts ≠ 2%nat)
     || bool_decide (parts !!! 0%nat = "")
     || bool_decide (parts !!! 1%nat = "") then
    mret (http.Error "Bad Request – expected /certs/{domain}/{file}"
                     http.StatusBadRequest)
  else
  let domain := parts !!! 0%nat in
  let fileName := parts !!! 1%nat in
  (* --- Validate domain (no path traversal) --- *)
  if strings.Contains domain ".." || strings.Contains domain "/"
     || strings.Contains domain "\" then
    mret (http.Error "Bad Request" http.StatusBadRequest)
  else
  (* --- Validate file name (allowlist only) --- *)
  if negb (allowedCertFile fileName) then
    mret (http.Error "Not Found" http.StatusNotFound)
  else
  (* --- Read file --- *)
  let certPath := filepath.Join [certsBaseDir; domain; fileName] in
  res ← osReadFile certPath;
  match res with
  | inr err =>
      if IsNotExist err then
        mret (http.Error "Not Found" http.StatusNotFound)
      else
        logPrintf (LogReadFailed certPath err);;
        mret (http.Error "Internal Server Error" http.StatusInternalServerError)
  | inl data =>
      logPrintf (LogServed certPath clientIP);;
      mret (pemResponse data)
  end
  end.

End api.


(** ** The stages of the handler, as a specification *)

Section stages.
Context `{!strings.Folding}.

(** The presented header is exactly ["Bearer " + bearerToken]. *)
Definition authenticated (bearerToken : string) (r : http.Request) : Prop :=
  http.Get (http.ReqHeader r) "Authorization" = "Bearer " +:+ bearerToken.

(** The peer address parses to [clientIP] and the FCrDNS verifier accepts
    it, after the lookups [t]. *)
Definition authorized (bearerToken : string) (dnsAllowlist : list string)
    (r : http.Request) (w : World) (clientIP : string) (t : list Event) : Prop :=
  authenticated bearerToken r /\
  (exists port, net.SplitHostPort (http.RemoteAddr r) = inl (clientIP, port)) /\
  isAllowedByFCrDNS clientIP dnsAllowlist w = (true, t).

(** The portion of the path after the routing prefix. *)
Definition requestPath (r : http.Request) : string :=
  strings.TrimPrefix (http.URLPath r) "/certs/".

(** [path] splits on its first separator into [domain] and [fileName]. *)
Definition cutsInto (path domain fileName : string) : Prop :=
  path = domain +:+ "/" +:+ fileName /\ strings.Contains domain "/" = false.

(** The domain segment holds a parent-directory marker or a separator. *)
Definition traversal (domain : string) : Prop :=
  strings.Contains domain ".." = true \/ strings.Contains domain "/" = true
  \/ strings.Contains domain "\" = true.

(** The path has the shape [{domain}/{file}] with a clean domain. *)
Definition wellFormed (r : http.Request) (domain fileName : string) : Prop :=
  cutsInto (requestPath r) domain fileName /\ domain <> "" /\ fileName <> ""
  /\ ~ traversal domain.

(** The PTR candidate [ptr] names the allowlist entry [allowed] and its
    forward resolution holds the client address. *)
Definition forwardConfirmed (w : World) (clientIP ptr allowed : string) : Prop :=
  strings.EqualFold (strings.TrimSuffix ptr ".") allowed = true /\
  exists addrs, LookupHost w (strings.TrimSuffix ptr ".") = inl addrs /\
                clientIP ∈ addrs.

(** A path element that names an entry of its directory: not empty, not
    [.] or [..], and free of separators. *)
Definition plainName (e : string) : Prop :=
  e <> "" /\ e <> "." /\ e <> ".." /\ strings.Contains e "/" = false.

(** [p] lies beneath the directory [root]: it is the cleaned root followed
    by a non-empty relative path of plain names (the cleaned root is a proper
    path prefix of [p]). *)
Definition beneath (root p : string) : Prop :=
  exists rel : list string,
    rel <> [] /\ Forall plainName rel /\
    (p = filepath.Clean root +:+ "/" +:+ strings.Join rel "/"
     \/ (filepath.Clean root = "/" /\ p = "/" +:+ strings.Join rel "/")
     \/ (filepath.Clean root = "." /\ p = strings.Join rel "/")).

(** [root] is a proper prefix of [p], as strings. *)
Definition properPrefix (root p : string) : Prop :=
  exists rest, rest <> "" /\ p = root +:+ rest.


Definition isDNSLookup (e : Event) : bool :=
  match e with
  | EvLookupAddr _ | EvLookupHost _ => true
  | _ => false
  end.

Definition isFileRead (e : Event) : bool :=
  match e with
  | EvReadFile _ => true
  | _ => false
  end.

Definition badRequestShape : string :=
  "Bad Request – expected /certs/{domain}/{file}".

(** The outcomes of a request: the response and what was done to get it. *)
Inductive outcome (bearerToken : string) (dnsAllowlist : list string)
    (certsBaseDir : string) (r : http.Request) (w : World)
  : http.Response -> list Event -> Prop :=
| out_unauthorized :
    ~ authenticated bearerToken r ->
    outcome bearerToken dnsAllowlist certsBaseDir r w
      (http.Error "Unauthorized" http.StatusUnauthorized) []
| out_bad_peer err :
    authenticated bearerToken r ->
    net.SplitHostPort (http.RemoteAddr r) = inr err ->
    outcome bearerToken dnsAllowlist certsBaseDir r w
      (http.Error "Forbidden" http.StatusForbidden)
      [EvLog (LogCannotParse (http.RemoteAddr r) err)]
| out_denied clientIP port t :
    authenticated bearerToken r ->
    net.SplitHostPort (http.RemoteAddr r) = inl (clientIP, port) ->
    isAllowedByFCrDNS clientIP dnsAllowlist w = (false, t) ->
    outcome bearerToken dnsAllowlist certsBaseDir r w
      (http.Error "Forbidden" http.StatusForbidden)
      (t ++ [EvLog (LogDenied clientIP)])%list
| out_bad_shape clientIP t :
    authorized bearerToken dnsAllowlist r w clientIP t ->
    (forall domain fileName,
        cutsInto (requestPath r) domain fileName -> domain = "" \/ fileName = "") ->
    outcome bearerToken dnsAllowlist certsBaseDir r w
      (http.Error badRequestShape http.StatusBadRequest) t
| out_traversal clientIP t domain fileName :
    authorized bearerToken dnsAllowlist r w clientIP t ->
    cutsInto (requestPath r) domain fileName -> domain <> "" -> fileName <> "" ->
    traversal domain ->
    outcome bearerToken dnsAllowlist certsBaseDir r w
      (http.Error "Bad Request" http.StatusBadRequest) t
| out_not_allowed clientIP t domain fileName :
    authorized bearerToken dnsAllowlist r w clientIP t ->
    wellFormed r domain fileName ->
    allowedCertFile fileName = false ->
    outcome bearerToken dnsAllowlist certsBaseDir r w
      (http.Error "Not Found" http.StatusNotFound) t
| out_absent clientIP t domain fileName err :
    authorized bearerToken dnsAllowlist r w clientIP t ->
    wellFormed r domain fileName ->
    allowedCertFile fileName = true ->
    ReadFile w (filepath.Join [certsBaseDir; domain; fileName]) = inr err ->
    IsNotExist err = true ->
    outcome bearerToken dnsAllowlist certsBaseDir r w
      (http.Error "Not Found" http.StatusNotFound)
      (t ++ [EvReadFile (filepath.Join [certsBaseDir; domain; fileName])])%list
| out_io_error clientIP t domain fileName err :
    authorized bearerToken dnsAllowlist r w clientIP t ->
    wellFormed r domain fileName ->
    allowedCertFile fileName = true ->
    ReadFile w (filepath.Join [certsBaseDir; domain; fileName]) = inr err ->
    IsNotExist err = false ->
    outcome bearerToken dnsAllowlist certsBaseDir r w
      (http.Error "Internal Server Error" http.StatusInternalServerError)
      (t ++ [EvReadFile (filepath.Join [certsBaseDir; domain; fileName]);
             EvLog (LogReadFailed
                      (filepath.Join [certsBaseDir; domain; fileName]) err)])%list
| out_served clientIP t domain fileName data :
    authorized bearerToken dnsAllowlist r w clientIP t ->
    wellFormed r domain fileName ->
    allowedCertFile fileName = true ->
    ReadFile w (filepath.Join [certsBaseDir; domain; fileName]) = inl data ->
    outcome bearerToken dnsAllowlist certsBaseDir r w
      (pemResponse data)
      (t ++ [EvReadFile (filepath.Join [certsBaseDir; domain; fileName]);
             EvLog (LogServed
                      (filepath.Join [certsBaseDir; domain; fileName]) clientIP)])%list.

End stages.


(** ** A deployment to run the model on *)

Module demo.

Definition bearerToken : string := "s3cret".
Definition dnsAllowlist : list string := ["client.example.com"].
Definition certsBaseDir : string := "/etc/letsencrypt/live".

Definition noSuchHost : string := "no such host".
Definition noSuchFile : PathError :=
  {| IsNotExist := true; ErrText := "no such file or directory" |}.
Definition permissionDenied : PathError :=
  {| IsNotExist := false; ErrText := "permission denied" |}.
Definition pem : string := "-----BEGIN CERTIFICATE-----".

(** The client 203.0.113.5 resolves to client.example.com and back; the
    certificate chain of example.org is on disk, its private key cannot be
    read, and secret.txt is a file the handler must not serve. *)
Definition world : World :=
  {| LookupAddr addr :=
       if bool_decide (addr = "203.0.113.5") then inl ["client.example.com."]
       else inr noSuchHost;
     LookupHost host :=
       if bool_decide (host = "client.example.com") then inl ["203.0.113.5"]
       else inr noSuchHost;
     ReadFile name :=
       if bool_decide (name = "/etc/letsencrypt/live/example.org/fullchain.pem")
       then inl pem
       else if bool_decide (name = "/etc/letsencrypt/live/example.org/secret.txt")
       then inl "secret"
       else if bool_decide (name = "/etc/letsencrypt/live/example.org/privkey.pem")
       then inr permissionDenied
       else inr noSuchFile |}.

(** The same, but the forward lookup answers another address. *)
Definition mismatchedWorld : World :=
  {| LookupAddr := LookupAddr world;
     LookupHost host :=
       if bool_decide (host = "client.example.com") then inl ["203.0.113.9"]
       else inr noSuchHost;
     ReadFile := ReadFile world |}.


(** A loopback client whose name resolves to the long form of its address. *)
Definition loopbackAllowlist : list string := ["localhost"].
Definition loopbackWorld : World :=
  {| LookupAddr addr :=
       if bool_decide (addr = "::1") then inl ["localhost."] else inr noSuchHost;
     LookupHost host :=
       if bool_decide (host = "localhost") then inl ["0:0:0:0:0:0:0:1"]
       else inr noSuchHost;
     ReadFile := ReadFile world |}.

Definition request (method path remoteAddr : string) (auth : option string)
  : http.Request :=
  {| http.Method := method;
     http.URLPath := path;
     http.ReqHeader :=
       match auth with
       | Some v => http.Set_ ∅ "Authorization" v
       | None => ∅
       end;
     http.RemoteAddr := remoteAddr |}.

Definition get (path : string) : http.Request :=
  request "GET" path "203.0.113.5:40312" (Some "Bearer s3cret").

Definition handler (allowlist : list string) (r : http.Request) (w : World)
  : http.Response * list Event :=
  @CertsHandler strings.asciiFolding bearerToken allowlist certsBaseDir r w.

Definition lookups : list Event :=
  [EvLookupAddr "203.0.113.5"; EvLookupHost "client.example.com"].

End demo.

(** ** A server answering a sequence of requests

    The closure returned by [CertsHandler] keeps [bearerToken],
    [dnsAllowlist] and [certsBaseDir] and never assigns to them: every request
    of a run is answered with the same three values. *)

Section server.
Context `{!strings.Folding}.

Definition serveAll (bearerToken : string) (dnsAllowlist : list string)
    (certsBaseDir : string) (w : World) (requests : list http.Request)
  : list http.Response :=
  map (fun r => (CertsHandler bearerToken dnsAllowlist certsBaseDir r w).1) requests.

(** Two worlds that give the same answers. *)
Definition sameAnswers (w1 w2 : World) : Prop :=
  (forall addr, LookupAddr w1 addr = LookupAddr w2 addr) /\
  (forall host, LookupHost w1 host = LookupHost w2 host) /\
  (forall name, ReadFile w1 name = ReadFile w2 name).

End server.


(** ** Package [strings], continued: [Split] and [TrimSpace] *)

Module strings'.

(** [func Split(s, sep string) []string]: [genSplit(s, sep, 0, -1)] *)
Definition Split (s sep : string) : list string := strings.SplitN s sep (-1).

(** [utf8.RuneSelf]: bytes below it are one-byte runes. *)
Definition isASCIIByte (c : ascii) : bool := (N_of_ascii c <? 128)%N.

(** The table [asciiSpace]: tab, newline, vertical tab, form feed, carriage
    return and space. *)
Definition asciiSpace (c : ascii) : bool :=
  match N_of_ascii c with
  | 9%N | 10%N | 11%N | 12%N | 13%N | 32%N => true
  | _ => false
  end.

(** The Unicode fallbacks of [TrimSpace], [TrimFunc(s, unicode.IsSpace)] and
    [TrimRightFunc(s, unicode.IsSpace)], taken when a loop of [TrimSpace]
    meets a byte outside ASCII.  The tables of package [unicode] are not
    part of this development: the two functions are parameters. *)
Class UnicodeSpace := {
  TrimFuncIsSpace : string -> string;
  TrimRightFuncIsSpace : string -> string;
}.

(** An instance for examples on ASCII text, where no fallback is taken. *)
Definition asciiText : UnicodeSpace :=
  {| TrimFuncIsSpace s := s; TrimRightFuncIsSpace s := s |}.

Section trim.
Context `{!UnicodeSpace}.

(** The second loop of [TrimSpace], which walks [stop] down from the end of
    [s[start:]]: the part [s[start:stop]] it leaves, and whether it left at
    a byte outside ASCII.  The part is empty exactly when every byte was an
    ASCII space. *)
Fixpoint scanStop (s : string) : string * bool :=
  match s with
  | "" => ("", false)
  | String c rest =>
      let '(kept, unicode) := scanStop rest in
      if bool_decide (kept = "") then
        if negb (isASCIIByte c) then (String c "", true)
        else if asciiSpace c then ("", false)
        else (String c "", false)
      else (String c kept, unicode)
  end.

Definition trimStop (s : string) : string :=
  let '(kept, unicode) := scanStop s in
  if unicode then TrimRightFuncIsSpace kept else kept.

(** [func TrimSpace(s string) string]: the first loop walks [start] up over
    ASCII spaces, the second walks [stop] down. *)
Fixpoint TrimSpace (s : string) : string :=
  match s with
  | "" => ""
  | String c rest =>
      if negb (isASCIIByte c) then TrimFuncIsSpace s
      else if asciiSpace c then TrimSpace rest
      else trimStop s
  end.

End trim.

End strings'.

(** ** Predicates on byte strings *)

(** Every byte is below [utf8.RuneSelf]. *)
Fixpoint isASCII (s : string) : bool :=
  match s with
  | "" => true
  | String c rest => strings'.isASCIIByte c && isASCII rest
  end.

(** Every byte is an ASCII space. *)
Fixpoint allSpace (s : string) : bool :=
  match s with
  | "" => true
  | String c rest => strings'.asciiSpace c && allSpace rest
  end.

(** An ASCII byte that is not a space. *)
Definition visible (c : ascii) : bool :=
  strings'.isASCIIByte c && negb (strings'.asciiSpace c).

Definition startsVisible (s : string) : bool :=
  match s with
  | "" => false
  | String c _ => visible c
  end.

Fixpoint endsVisible (s : string) : bool :=
  match s with
  | "" => false
  | String c "" => visible c
  | String _ rest => endsVisible rest
  end.

(** A non-empty string with a visible byte at each end: what [TrimSpace]
    leaves unchanged. *)
Definition trimmed (s : string) : bool := startsVisible s && endsVisible s.

(** The byte [c] does not occur in [s]. *)
Fixpoint noByte (c : ascii) (s : string) : bool :=
  match s with
  | "" => true
  | String a rest => negb (bool_decide (a = c)) && noByte c rest
  end.

(** ** The token file reader: [loadToken] of [cmd/dns-proxy-api] *)

Module tokenfile.

Inductive Fatal :=
| FailedToOpen (err : string)    (* log.Fatalf("Failed to open config file: %v", err) *)
| TokenNotFound.                 (* log.Fatal("DNS_RESOLVER_API_TOKEN not found in config file") *)

Section loadToken.
Context `{!strings'.UnicodeSpace}.

(** The body of [for scanner.Scan() { ... }] for one line: the value of
    [apiKey] after it. *)
Definition scanLine (apiKey : string) (text : string) : string :=
  let line := strings'.TrimSpace text in
  if bool_decide (line = "") || strings.HasPrefix line "#" then apiKey
  else
    let parts := strings.SplitN line "=" 2 in
    if bool_decide (length parts = 2%nat)
       && bool_decide (strings'.TrimSpace (parts !!! 0%nat) = "DNS_RESOLVER_API_TOKEN")
    then strings'.TrimSpace (parts !!! 1%nat)
    else apiKey.

(** [func loadToken(path string) string], on what [os.Open] and the scanner
    give for the path: the error of [os.Open], or the lines in order.
    [inr] is the exit through [log.Fatal]. *)
Definition loadToken (file : string + list string) : string + Fatal :=
  match file with
  | inl err => inr (FailedToOpen err)
  | inr lines =>
      let apiKey := foldl scanLine "" lines in
      if bool_decide (apiKey = "") then inr TokenNotFound else inl apiKey
  end.

End loadToken.

End tokenfile.

(** ** The server program: [main] of [cmd/dns-proxy-api] *)

Module dnsproxy.

Definition configPath : string := "/etc/acme-dns-tools/dns-proxy-api.conf".
Definition defaultCertsBaseDir : string := "/etc/letsencrypt/live".

(** The values [main] holds when it starts to listen. *)
Record Server := {
  apiKey : string;
  certBearerToken : string;
  certDNSAllowlist : list string;
  certsBaseDir : string;
  tlsCert : string;
  tlsKey : string;
}.

(** The JSON body of a [/set_txt] request. *)
Record SetTxt := { Domain : string; Key : string; Value : string }.

(** [json.NewDecoder(r.Body).Decode(&req)]: the decoded fields when
    [err == nil], the error otherwise.  Package [encoding/json] is not part of
    this development: the decoder is a parameter. *)
Class JSONDecoder := { Decode : string -> SetTxt + string }.

(** [cmd.CombinedOutput()] of [exec.Command(name, arg...)]: the output, and
    the error if the command failed. *)
Record Host := { CombinedOutput : list string -> string * option string }.

Inductive CliEvent :=
| CliRun (argv : list string)
| CliLog (err output : string).

Section main.
Context `{!strings'.UnicodeSpace}.

(** The body of [for _, h := range strings.Split(certDNSAllowlistRaw, ",")] *)
Definition allowlistStep (certDNSAllowlist : list string) (h : string)
  : list string :=
  let h := strings'.TrimSpace h in
  if bool_decide (h <> "") then (certDNSAllowlist ++ [h])%list
  else certDNSAllowlist.

Definition splitAllowlist (certDNSAllowlistRaw : string) : list string :=
  foldl allowlistStep [] (strings'.Split certDNSAllowlistRaw ",").

(** [func main()] up to the registration of the handlers, on the map that
    [config.LoadConfig(configPath)] returns ([cfg[key]] of a missing key is
    the empty string).  [inl] is the exit through [log.Fatal]. *)
Definition main (cfg : gmap string string) : string + Server :=
  (* --- DNS management API key (existing) --- *)
  let apiKey := cfg !!! "API_KEY" in
  if bool_decide (apiKey = "") then inl "API_KEY not found in config file"
  else
  (* --- Cert serving: Bearer token --- *)
  let certBearerToken := cfg !!! "CERT_BEARER_TOKEN" in
  if bool_decide (certBearerToken = "") then
    inl "CERT_BEARER_TOKEN not found in config file"
  else
  (* --- Cert serving: DNS allowlist (comma-separated hostnames, FCrDNS) --- *)
  let certDNSAllowlistRaw := cfg !!! "CERT_DNS_ALLOWLIST" in
  if bool_decide (certDNSAllowlistRaw = "") then
    inl "CERT_DNS_ALLOWLIST not found in config file"
  else
  let certDNSAllowlist := splitAllowlist certDNSAllowlistRaw in
  (* --- Cert serving: base directory --- *)
  let certsBaseDir := cfg !!! "CERT_BASE_DIR" in
  let certsBaseDir :=
    if bool_decide (certsBaseDir = "") then defaultCertsBaseDir else certsBaseDir in
  (* --- TLS (optional) --- *)
  inr {| apiKey := apiKey;
         certBearerToken := certBearerToken;
         certDNSAllowlist := certDNSAllowlist;
         certsBaseDir := certsBaseDir;
         tlsCert := cfg !!! "TLS_CERT";
         tlsKey := cfg !!! "TLS_KEY" |}.

End main.

Section handlers.
Context `{!JSONDecoder}.

(** The handler [main] registers for [/set_txt], on the body of the
    request. *)
Definition setTxtHandler (apiKey : string) (host : Host) (r : http.Request)
    (body : string) : http.Response * list CliEvent :=
  let authHeader := http.Get (http.ReqHeader r) "Authorization" in
  let expected := "Bearer " +:+ apiKey in
  if bool_decide (authHeader <> expected) then
    (http.Error "Unauthorized" http.StatusUnauthorized, [])
  else
    match Decode body with
    | inr _ => (http.Error "Invalid request body" http.StatusBadRequest, [])
    | inl req =>
        if bool_decide (Domain req = "") || bool_decide (Key req = "")
           || bool_decide (Value req = "") then
          (http.Error "Invalid request body" http.StatusBadRequest, [])
        else
          let argv := ["/usr/local/bin/dns-proxy-cli"; "set-txt";
                       "--domain"; Domain req; "--key"; Key req;
                       "--value"; Value req] in
          match CombinedOutput host argv with
          | (output, Some err) =>
              (http.Error output http.StatusInternalServerError,
               [CliRun argv; CliLog err output])
          | (output, None) =>
              ({| http.StatusCode := http.StatusOK;
                  http.RespHeader := ∅;
                  http.Body := "TXT record set" |},
               [CliRun argv])
          end
    end.

End handlers.

End dnsproxy.

(** ** More vocabulary for runs of the handler *)



Definition isLog (e : Event) : bool :=
  match e with
  | EvLog _ => true
  | _ => false
  end.

(** The six error responses of the certificate handler. *)
Definition errorResponses : list http.Response :=
  [http.Error "Unauthorized" http.StatusUnauthorized;
   http.Error "Forbidden" http.StatusForbidden;
   http.Error "Bad Request – expected /certs/{domain}/{file}" http.StatusBadRequest;
   http.Error "Bad Request" http.StatusBadRequest;
   http.Error "Not Found" http.StatusNotFound;
   http.Error "Internal Server Error" http.StatusInternalServerError].

(** Every byte of [s] satisfies [p]. *)
Fixpoint allBytes (p : ascii -> bool) (s : string) : bool :=
  match s with
  | "" => true
  | String c rest => p c && allBytes p rest
  end.

(** A configuration value made of commas and ASCII spaces only. *)
Definition onlyCommasAndSpaces (s : string) : bool :=
  allBytes (fun c => bool_decide (c = ","%char) || strings'.asciiSpace c) s.

(** [piece] is [host] between two runs of ASCII spaces. *)
Definition padded (piece host : string) : Prop :=
  exists pre post,
    allSpace pre = true /\ allSpace post = true /\ piece = pre +:+ host +:+ post.

(** A line of a token file that [loadToken] passes over: blank, a comment,
    or without an equals sign. *)
Definition passedOver (text : string) : Prop :=
  isASCII text = true /\
  (allSpace text = true
   \/ (exists pre rest, allSpace pre = true /\ text = pre +:+ "#" +:+ rest)
   \/ noByte "=" text = true).

(** ** Sample inputs for the server program *)

Module sample.

(** A configuration whose allowlist value is blank. *)
Definition blankAllowlistConfig : gmap string string :=
  <["API_KEY" := "k3y"]>
  (<["CERT_BEARER_TOKEN" := "s3cret"]>
  (<["CERT_DNS_ALLOWLIST" := " , "]> ∅)).

(** A decoder that refuses every body, and a host whose tool succeeds. *)
Definition refusing : dnsproxy.JSONDecoder :=
  {| dnsproxy.Decode _ := inr "unexpected end of JSON input" |}.
Definition quietHost : dnsproxy.Host :=
  {| dnsproxy.CombinedOutput _ := ("", None) |}.

(** A token file with a comment, an old token and a new one. *)
Definition tokenLines : list string :=
  ["# dns-proxy-api"; "DNS_RESOLVER_API_TOKEN=old";
   " DNS_RESOLVER_API_TOKEN = a=b c "].

End sample.


(** ** The library models on sample inputs

    The models of [filepath.Clean], [filepath.Join], [net.SplitHostPort] and
    [strings.SplitN] give the results of the Go functions on these inputs. *)

Section library_vectors.

Example Clean_vectors :
  map filepath.Clean
    ["abc"; "."; ".."; "../../abc"; "/"; ""; "abc/"; "../../"; "abc//def//ghi";
     "/./abc/def"; "abc/def/../ghi/../jkl"; "abc/def/../.."; "/abc/def/../../..";
     "abc/def/../../../ghi/jkl/../../../mno"; "/../abc"; "abc/../../././../def";
     "//abc//"]
  = ["abc"; "."; ".."; "../../abc"; "/"; "."; "abc"; "../.."; "abc/def/ghi";
     "/abc/def"; "abc/jkl"; "."; "/";
     "../../mno"; "/abc"; "../../def";
     "/abc"].
Proof. by vm_compute. Qed.

Example Join_vectors :
  map filepath.Join
    [["a"; "b"]; ["a"; ""]; [""; "b"]; ["/"; "a"]; ["/"; ""]; ["a"; "/b"];
     ["/a"; "/b"]; ["a/"; ""]; [""; ""]; ["//"; "a"]; ["a"; "../../b"]]
  = ["a/b"; "a"; "b"; "/a"; "/"; "a/b"; "/a/b"; "a"; ""; "/a"; "../b"].
Proof. by vm_compute. Qed.

Example SplitHostPort_vectors :
  map net.SplitHostPort
    ["127.0.0.1:80"; "[::1]:80"; "[::1%lo0]:80"; "localhost:80"; ":80"; "127.0.0.1:"]
  = [inl ("127.0.0.1", "80"); inl ("::1", "80"); inl ("::1%lo0", "80");
     inl ("localhost", "80"); inl ("", "80"); inl ("127.0.0.1", "")].
Proof. by vm_compute. Qed.

Example SplitHostPort_errors :
  map (fun hostport => sum_rect (fun _ => string) (fun _ => "") net.Err
                         (net.SplitHostPort hostport))
    ["golang.org"; "127.0.0.1"; "[::1]"; "::1"; "[foo:bar]baz"; "[foo]bar:baz";
     "[foo]:[bar]:baz"; "[foo]:[bar]baz"; "foo[bar]:baz"; "foo]bar:baz"]
  = [net.missingPort; net.missingPort; net.missingPort; net.tooManyColons;
     net.missingPort; net.missingPort;
     net.tooManyColons; "unexpected '[' in address"; "unexpected '[' in address";
     "unexpected ']' in address"].
Proof. by vm_compute. Qed.

Example SplitN_vectors :
  map (fun s => strings.SplitN s "/" 2)
    ["example.org/fullchain.pem"; "example.org/a/b"; "example.org"; "";
     "/fullchain.pem"; "example.org/"]
  = [["example.org"; "fullchain.pem"]; ["example.org"; "a/b"]; ["example.org"]; [""];
     [""; "fullchain.pem"]; ["example.org"; ""]].
Proof. by vm_compute. Qed.

Example SplitN_counts :
  strings.SplitN "a,b,c,d" "," 3 = ["a"; "b"; "c,d"]
  /\ strings.SplitN "a,b,c,d" "," 0 = []
  /\ strings.SplitN "a,b,c,d" "," (-1) = ["a"; "b"; "c"; "d"]
  /\ strings.SplitN "a,b,c,d" "," 1 = ["a,b,c,d"].
Proof. by vm_compute. Qed.

End library_vectors.


(** ** Facts about slices and [strings] *)

Section string_facts.

#[local] Arguments strings.Index : simpl never.

Lemma len_nonneg s : 0 <= len s.
Proof. unfold len; lia. Qed.

Lemma len_app s t : len (s +:+ t) = len s + len t.
Proof.
  unfold len. induction s as [|c s IH]; simpl; [lia|].
  rewrite !Nat2Z.inj_succ. simpl in IH. lia.
Qed.

Lemma len_String c s : len (String c s) = len s + 1.
Proof. unfold len; simpl; lia. Qed.

Lemma len_zero s : len s = 0 -> s = "".
Proof. destruct s; [done|]. rewrite len_String. pose proof (len_nonneg s). lia. Qed.

Lemma app_empty_r s : s +:+ "" = s.
Proof. induction s; simpl; congruence. Qed.

Lemma app_assoc' s t u : (s +:+ t) +:+ u = s +:+ (t +:+ u).
Proof. induction s; simpl; congruence. Qed.

Lemma str_take_app s t : str_take (String.length s) (s +:+ t) = s.
Proof. induction s; simpl; [by destruct t|]. congruence. Qed.

Lemma str_drop_app s t : str_drop (String.length s) (s +:+ t) = t.
Proof. induction s; simpl; [done|]. congruence. Qed.

Lemma str_take_drop n s : str_take n s +:+ str_drop n s = s.
Proof.
  revert s; induction n as [|n IH]; intros [|c s]; simpl; try done.
  by rewrite IH.
Qed.

Lemma str_take_length n s :
  (n <= String.length s)%nat -> String.length (str_take n s) = n.
Proof.
  revert s; induction n as [|n IH]; intros [|c s]; simpl; try lia.
  intros. rewrite IH; lia.
Qed.

Lemma sliceTo_app s t : sliceTo (s +:+ t) (len s) = s.
Proof. unfold sliceTo, len. rewrite Nat2Z.id. apply str_take_app. Qed.

Lemma sliceFrom_app s t : sliceFrom (s +:+ t) (len s) = t.
Proof. unfold sliceFrom, len. rewrite Nat2Z.id. apply str_drop_app. Qed.

Lemma sliceTo_0 s : sliceTo s 0 = "".
Proof. unfold sliceTo. simpl. by destruct s. Qed.

Lemma sliceFrom_0 s : sliceFrom s 0 = s.
Proof. unfold sliceFrom. simpl. by destruct s. Qed.

Lemma sliceTo_succ c s i : 0 <= i -> sliceTo (String c s) (i + 1) = String c (sliceTo s i).
Proof.
  intros. unfold sliceTo.
  replace (Z.to_nat (i + 1)) with (S (Z.to_nat i)) by lia. done.
Qed.

Lemma sliceFrom_succ c s i : 0 <= i -> sliceFrom (String c s) (i + 1) = sliceFrom s i.
Proof.
  intros. unfold sliceFrom.
  replace (Z.to_nat (i + 1)) with (S (Z.to_nat i)) by lia. done.
Qed.

(** [HasPrefix] decides "[s] starts with [p]". *)
Lemma HasPrefix_spec s p :
  strings.HasPrefix s p = true <-> exists rest, s = p +:+ rest.
Proof.
  unfold strings.HasPrefix. rewrite andb_true_iff, bool_decide_eq_true, Z.leb_le.
  split.
  - intros [_ Heq]. exists (sliceFrom s (len p)).
    pose proof (str_take_drop (Z.to_nat (len p)) s) as Hs.
    unfold sliceTo in Heq. rewrite Heq in Hs. done.
  - intros [rest ->]. rewrite len_app, sliceTo_app.
    pose proof (len_nonneg rest). split; [lia|done].
Qed.

Lemma HasPrefix_app p rest : strings.HasPrefix (p +:+ rest) p = true.
Proof. apply HasPrefix_spec. by exists rest. Qed.

Lemma TrimPrefix_app p rest : strings.TrimPrefix (p +:+ rest) p = rest.
Proof. unfold strings.TrimPrefix. by rewrite HasPrefix_app, sliceFrom_app. Qed.

Lemma TrimPrefix_no s p : strings.HasPrefix s p = false -> strings.TrimPrefix s p = s.
Proof. unfold strings.TrimPrefix. by intros ->. Qed.

(** [HasSuffix] decides "[s] ends with [suffix]". *)
Lemma HasSuffix_spec s suffix :
  strings.HasSuffix s suffix = true <-> exists front, s = front +:+ suffix.
Proof.
  unfold strings.HasSuffix. rewrite andb_true_iff, bool_decide_eq_true, Z.leb_le.
  split.
  - intros [_ Heq]. exists (sliceTo s (len s - len suffix)).
    pose proof (str_take_drop (Z.to_nat (len s - len suffix)) s) as Hs.
    unfold sliceFrom in Heq. rewrite Heq in Hs. done.
  - intros [front ->]. rewrite len_app.
    replace (len front + len suffix - len suffix) with (len front) by lia.
    rewrite sliceFrom_app. pose proof (len_nonneg front). split; [lia|done].
Qed.

Lemma TrimSuffix_app front suffix :
  strings.TrimSuffix (front +:+ suffix) suffix = front.
Proof.
  unfold strings.TrimSuffix.
  rewrite (proj2 (HasSuffix_spec _ _)) by by exists front.
  rewrite len_app.
  replace (len front + len suffix - len suffix) with (len front) by lia.
  apply sliceTo_app.
Qed.

Lemma TrimSuffix_no s suffix :
  (forall front, s <> front +:+ suffix) -> strings.TrimSuffix s suffix = s.
Proof.
  intros Hno. unfold strings.TrimSuffix.
  destruct (strings.HasSuffix s suffix) eqn:E; [|done].
  apply HasSuffix_spec in E as [front ->]. by destruct (Hno front).
Qed.

(** *** [Index], [Contains] and [SplitN] *)

Lemma Index_String c s sub :
  strings.Index (String c s) sub =
  if strings.HasPrefix (String c s) sub then 0
  else if strings.Index s sub <? 0 then -1 else strings.Index s sub + 1.
Proof. done. Qed.

Lemma Index_empty sub :
  strings.Index "" sub = if strings.HasPrefix "" sub then 0 else -1.
Proof. done. Qed.

Lemma Index_HasPrefix s sub :
  strings.HasPrefix s sub = true -> strings.Index s sub = 0.
Proof. intros H. destruct s; [rewrite Index_empty|rewrite Index_String]; by rewrite H. Qed.

Lemma Index_range s sub : strings.Index s sub = -1 \/ 0 <= strings.Index s sub.
Proof.
  induction s as [|c s IH].
  - rewrite Index_empty. destruct (strings.HasPrefix "" sub); lia.
  - rewrite Index_String. destruct (strings.HasPrefix _ sub); [lia|].
    destruct (Z.ltb_spec (strings.Index s sub) 0); lia.
Qed.

(** A non-negative index cuts [s] around an instance of [sub]. *)
Lemma Index_found s sub :
  0 <= strings.Index s sub ->
  s = sliceTo s (strings.Index s sub) +:+ sub
        +:+ sliceFrom s (strings.Index s sub + len sub).
Proof.
  induction s as [|c s IH].
  - rewrite Index_empty. destruct (strings.HasPrefix "" sub) eqn:E; [|lia]. intros _.
    apply HasPrefix_spec in E as [rest E]. rewrite sliceTo_0. simpl.
    rewrite E at 1. f_equal. by rewrite E, sliceFrom_app.
  - rewrite Index_String. destruct (strings.HasPrefix _ sub) eqn:E.
    + intros _. apply HasPrefix_spec in E as [rest E]. rewrite sliceTo_0. simpl.
      rewrite E at 1. f_equal. by rewrite E, sliceFrom_app.
    + destruct (Z.ltb_spec (strings.Index s sub) 0) as [|Hge]; [lia|]. intros _.
      rewrite sliceTo_succ by done.
      replace (strings.Index s sub + 1 + len sub)
        with ((strings.Index s sub + len sub) + 1) by lia.
      pose proof (len_nonneg sub).
      rewrite sliceFrom_succ by lia. simpl. f_equal. by apply IH.
Qed.

(** [Contains] decides "[sub] occurs in [s]". *)
Lemma Contains_spec s sub :
  strings.Contains s sub = true <-> exists front back, s = front +:+ sub +:+ back.
Proof.
  unfold strings.Contains. rewrite Z.leb_le. split.
  - intros H. apply Index_found in H. eauto.
  - intros (front & back & ->). induction front as [|c front IH].
    + simpl. rewrite Index_HasPrefix; [lia|apply HasPrefix_app].
    + simpl. rewrite Index_String. destruct (strings.HasPrefix _ sub); [lia|].
      destruct (Z.ltb_spec (strings.Index (front +:+ sub +:+ back) sub) 0); lia.
Qed.

Lemma Contains_false_String c s sub :
  strings.Contains (String c s) sub = false ->
  strings.HasPrefix (String c s) sub = false /\ strings.Contains s sub = false.
Proof.
  unfold strings.Contains. rewrite !Z.leb_gt, Index_String.
  destruct (strings.HasPrefix _ sub); [lia|].
  destruct (Z.ltb_spec (strings.Index s sub) 0); [done|lia].
Qed.

Lemma Contains_empty sub : sub <> "" -> strings.Contains "" sub = false.
Proof.
  intros Hne. destruct (strings.Contains "" sub) eqn:E; [|done].
  apply Contains_spec in E as (front & back & E).
  destruct front; [|done]. destruct sub; done.
Qed.

(** The part before the first instance of [sub] holds no instance. *)
Lemma Index_first s sub :
  sub <> "" -> 0 <= strings.Index s sub ->
  strings.Contains (sliceTo s (strings.Index s sub)) sub = false.
Proof.
  intros Hne. induction s as [|c s IH].
  - intros _. unfold sliceTo. destruct (Z.to_nat _); by apply Contains_empty.
  - rewrite Index_String. destruct (strings.HasPrefix _ sub) eqn:E.
    + intros _. rewrite sliceTo_0. by apply Contains_empty.
    + destruct (Z.ltb_spec (strings.Index s sub) 0) as [|Hge]; [lia|]. intros _.
      rewrite sliceTo_succ by done. specialize (IH Hge).
      unfold strings.Contains in *. rewrite Z.leb_gt in *. rewrite Index_String.
      destruct (strings.HasPrefix (String c (sliceTo s _)) sub) eqn:E2.
      * apply HasPrefix_spec in E2 as [rest E2].
        assert (strings.HasPrefix (String c s) sub = true) as E3; [|congruence].
        apply HasPrefix_spec. exists (rest +:+ sub +:+ sliceFrom s (strings.Index s sub + len sub)).
        rewrite (Index_found s sub Hge) at 1.
        change (String c (?a +:+ ?b)) with (String c a +:+ b).
        rewrite E2. by rewrite app_assoc'.
      * destruct (Z.ltb_spec (strings.Index (sliceTo s (strings.Index s sub)) sub) 0); lia.
Qed.

(** For a one-byte separator the first cut is where the separator first
    appears. *)
Lemma Index_byte_app c d f :
  strings.Contains d (String c "") = false ->
  strings.Index (d +:+ String c f) (String c "") = len d.
Proof.
  induction d as [|a d IH]; intros Hd.
  - simpl. change (String c f) with (String c "" +:+ f).
    by rewrite Index_HasPrefix by apply HasPrefix_app.
  - apply Contains_false_String in Hd as [Hp Hd]. specialize (IH Hd).
    simpl. rewrite Index_String, IH, len_String.
    assert (strings.HasPrefix (String a (d +:+ String c f)) (String c "") = false) as ->.
    { destruct (strings.HasPrefix (String a (d +:+ String c f)) _) eqn:E; [|done].
      apply HasPrefix_spec in E as [rest E]. simpl in E. injection E as -> _.
      rewrite <- Hp. symmetry. apply HasPrefix_spec. by exists d. }
    pose proof (len_nonneg d). destruct (Z.ltb_spec (len d) 0); lia.
Qed.

(** [SplitN(s, "/", 2)] has two pieces exactly when [s] holds a separator;
    the pieces are what stands before and after the first one. *)
Lemma SplitN2_cut s c d f :
  strings.SplitN s (String c "") 2 = [d; f] <->
  s = d +:+ String c f /\ strings.Contains d (String c "") = false.
Proof.
  unfold strings.SplitN. simpl.
  assert (Hs : s = "" \/ 1 <= len s).
  { destruct s; [by left|right]. rewrite len_String. pose proof (len_nonneg s). lia. }
  split.
  - destruct Hs as [->|Hs].
    + simpl. done.
    + destruct (Z.ltb_spec (len s + 1) 2); [lia|]. simpl.
      destruct (Z.ltb_spec (strings.Index s (String c "")) 0) as [|Hge]; [done|].
      intros [= <- <-]. split.
      * rewrite (Index_found _ _ Hge) at 1. done.
      * by apply Index_first.
  - intros [-> Hd].
    assert (1 <= len (d +:+ String c f)).
    { rewrite len_app, len_String. pose proof (len_nonneg d). pose proof (len_nonneg f). lia. }
    destruct (Z.ltb_spec (len (d +:+ String c f) + 1) 2); [lia|]. simpl.
    rewrite Index_byte_app by done.
    pose proof (len_nonneg d). destruct (Z.ltb_spec (len d) 0); [lia|].
    rewrite sliceTo_app. change (len (String c "")) with 1.
    change (String c f) with (String c "" +:+ f).
    replace (len d + 1) with (len (d +:+ String c "")) by by rewrite len_app.
    by rewrite <- app_assoc', sliceFrom_app.
Qed.

(** Without a separator, or with an empty input, there is one piece. *)
Lemma SplitN2_length s c :
  length (strings.SplitN s (String c "") 2) = 2%nat \/
  strings.SplitN s (String c "") 2 = [s].
Proof.
  unfold strings.SplitN. simpl.
  pose proof (len_nonneg s).
  destruct (Z.ltb_spec (len s + 1) 2); simpl.
  - right. by replace (len s + 1 - 1) with 0 by lia.
  - destruct (strings.Index s (String c "") <? 0); [by right|by left].
Qed.

End string_facts.


(** ** Facts about the FCrDNS verifier *)

Section fcrdns_facts.
Context `{!strings.Folding}.

Lemma bind_run {A B} (m : IO A) (f : A -> IO B) w :
  (m ≫= f) w = let '(a, t1) := m w in let '(b, t2) := f a w in (b, (t1 ++ t2)%list).
Proof. done. Qed.

(** The innermost loop is membership, by equality of strings. *)
Lemma addrsLoop_elem clientIP addrs :
  addrsLoop clientIP addrs = true <-> clientIP ∈ addrs.
Proof.
  induction addrs as [|addr addrs IH]; simpl.
  - split; [done|]. by intros ?%elem_of_nil.
  - case_bool_decide as E.
    + subst. split; [intros _; apply list_elem_of_here|done].
    + rewrite IH, elem_of_cons. split; [by right|]. by intros [->|?].
Qed.

Lemma allowlistLoop_cons clientIP hostname allowed rest w :
  allowlistLoop clientIP hostname (allowed :: rest) w =
  if negb (strings.EqualFold hostname allowed) then
    allowlistLoop clientIP hostname rest w
  else
    match LookupHost w hostname with
    | inr _ => ((allowlistLoop clientIP hostname rest w).1,
                EvLookupHost hostname :: (allowlistLoop clientIP hostname rest w).2)
    | inl addrs =>
        if addrsLoop clientIP addrs then (true, [EvLookupHost hostname])
        else ((allowlistLoop clientIP hostname rest w).1,
              EvLookupHost hostname :: (allowlistLoop clientIP hostname rest w).2)
    end.
Proof.
  simpl. destruct (negb _); [done|].
  rewrite bind_run. unfold netLookupHost.
  destruct (LookupHost w hostname) as [addrs|e].
  - destruct (addrsLoop clientIP addrs); [done|].
    by destruct (allowlistLoop clientIP hostname rest w).
  - by destruct (allowlistLoop clientIP hostname rest w).
Qed.

Lemma ptrsLoop_cons clientIP allowlist ptr rest w :
  ptrsLoop clientIP allowlist (ptr :: rest) w =
  let inner := allowlistLoop clientIP (strings.TrimSuffix ptr ".") allowlist w in
  if inner.1 then (true, inner.2)
  else ((ptrsLoop clientIP allowlist rest w).1,
        (inner.2 ++ (ptrsLoop clientIP allowlist rest w).2)%list).
Proof.
  simpl. rewrite bind_run.
  destruct (allowlistLoop clientIP _ allowlist w) as [[|] t1]; simpl.
  - by rewrite app_nil_r.
  - by destruct (ptrsLoop clientIP allowlist rest w).
Qed.

Lemma allowlistLoop_nil clientIP hostname w :
  allowlistLoop clientIP hostname [] w = (false, []).
Proof. done. Qed.

Lemma ptrsLoop_nil clientIP allowlist w :
  ptrsLoop clientIP allowlist [] w = (false, []).
Proof. done. Qed.

#[local] Arguments allowlistLoop : simpl never.
#[local] Arguments ptrsLoop : simpl never.

(** The loop over the allowlist accepts exactly a confirmed entry. *)
Lemma allowlistLoop_true w clientIP hostname allowlist :
  (allowlistLoop clientIP hostname allowlist w).1 = true <->
  exists allowed addrs,
    allowed ∈ allowlist /\ strings.EqualFold hostname allowed = true /\
    LookupHost w hostname = inl addrs /\ clientIP ∈ addrs.
Proof.
  induction allowlist as [|allowed rest IH].
  - rewrite allowlistLoop_nil. split; [done|]. by intros (? & ? & ?%elem_of_nil & _).
  - rewrite allowlistLoop_cons.
    destruct (strings.EqualFold hostname allowed) eqn:Hfold; simpl.
    + destruct (LookupHost w hostname) as [addrs|e] eqn:Hfwd.
      * destruct (addrsLoop clientIP addrs) eqn:Hin; simpl.
        -- split; [intros _|done]. exists allowed, addrs.
           split; [apply list_elem_of_here|]. by rewrite <- addrsLoop_elem.
        -- rewrite IH. split.
           ++ intros (a & l & ? & ? & ? & ?). exists a, l.
              split; [by apply list_elem_of_further|done].
           ++ intros (a & l & Ha & ? & Hl & Hc).
              assert (l = addrs) as -> by congruence.
              apply addrsLoop_elem in Hc. congruence.
      * simpl. rewrite IH. split.
        -- intros (a & l & ? & ? & ? & ?). congruence.
        -- intros (a & l & ? & ? & ? & ?). congruence.
    + rewrite IH. split.
      * intros (a & l & ? & ? & ? & ?). exists a, l.
        split; [by apply list_elem_of_further|done].
      * intros (a & l & Ha & Hf & ? & ?). exists a, l.
        apply elem_of_cons in Ha as [->|Ha]; [congruence|done].
Qed.

(** The loop over the PTR candidates accepts exactly a confirmed pair. *)
Lemma ptrsLoop_true w clientIP allowlist ptrs :
  (ptrsLoop clientIP allowlist ptrs w).1 = true <->
  exists ptr allowed,
    ptr ∈ ptrs /\ allowed ∈ allowlist /\ forwardConfirmed w clientIP ptr allowed.
Proof.
  unfold forwardConfirmed. induction ptrs as [|ptr rest IH].
  - rewrite ptrsLoop_nil. split; [done|]. by intros (? & ? & ?%elem_of_nil & _).
  - rewrite ptrsLoop_cons. simpl.
    destruct (allowlistLoop clientIP _ allowlist w).1 eqn:Hinner; simpl.
    + split; [intros _|done].
      apply allowlistLoop_true in Hinner as (a & l & ? & ? & ? & ?).
      exists ptr, a. split; [apply list_elem_of_here|]. eauto.
    + rewrite IH. split.
      * intros (p & a & ? & ?). exists p, a.
        split; [by apply list_elem_of_further|done].
      * intros (p & a & Hp & Ha & Hf & l & Hl & Hc).
        apply elem_of_cons in Hp as [->|Hp]; [|by eauto 10].
        assert ((allowlistLoop clientIP (strings.TrimSuffix ptr ".") allowlist w).1
                = true) as Hyes; [|congruence].
        apply allowlistLoop_true. eauto 10.
Qed.

(** The verifier only looks names up: it reads no file and logs nothing. *)
Lemma allowlistLoop_trace w clientIP hostname allowlist :
  Forall (fun e => e = EvLookupHost hostname)
         (allowlistLoop clientIP hostname allowlist w).2.
Proof.
  induction allowlist as [|allowed rest IH]; [rewrite allowlistLoop_nil; by constructor|].
  rewrite allowlistLoop_cons. destruct (negb _); [done|].
  destruct (LookupHost w hostname) as [addrs|e].
  - destruct (addrsLoop clientIP addrs); simpl; by repeat constructor.
  - simpl. by constructor.
Qed.

Lemma ptrsLoop_trace w clientIP allowlist ptrs :
  Forall (fun e => isDNSLookup e = true) (ptrsLoop clientIP allowlist ptrs w).2.
Proof.
  induction ptrs as [|ptr rest IH]; [rewrite ptrsLoop_nil; by constructor|].
  rewrite ptrsLoop_cons. simpl.
  pose proof (allowlistLoop_trace w clientIP (strings.TrimSuffix ptr ".") allowlist) as Hin.
  assert (Forall (fun e => isDNSLookup e = true)
            (allowlistLoop clientIP (strings.TrimSuffix ptr ".") allowlist w).2) as Hin'.
  { eapply Forall_impl; [exact Hin|]. by intros ? ->. }
  destruct (allowlistLoop clientIP _ allowlist w).1; simpl; [done|].
  by apply Forall_app.
Qed.

Lemma isAllowedByFCrDNS_run w clientIP allowlist :
  isAllowedByFCrDNS clientIP allowlist w =
  match allowlist with
  | [] => (false, [])
  | _ :: _ =>
      match LookupAddr w clientIP with
      | inl (ptr :: rest) =>
          ((ptrsLoop clientIP allowlist (ptr :: rest) w).1,
           EvLookupAddr clientIP :: (ptrsLoop clientIP allowlist (ptr :: rest) w).2)
      | _ => (false, [EvLookupAddr clientIP])
      end
  end.
Proof.
  unfold isAllowedByFCrDNS. destruct allowlist as [|a al]; [done|].
  rewrite bool_decide_eq_false_2 by done.
  rewrite bind_run. unfold netLookupAddr.
  destruct (LookupAddr w clientIP) as [[|ptr rest]|e]; try done.
  rewrite bool_decide_eq_false_2 by done.
  by destruct (ptrsLoop clientIP (a :: al) (ptr :: rest) w).
Qed.

Lemma isAllowedByFCrDNS_trace w clientIP allowlist :
  Forall (fun e => isDNSLookup e = true) (isAllowedByFCrDNS clientIP allowlist w).2.
Proof.
  rewrite isAllowedByFCrDNS_run. destruct allowlist as [|a al]; [by constructor|].
  destruct (LookupAddr w clientIP) as [[|ptr rest]|e]; simpl;
    try by repeat constructor.
  constructor; [done|]. apply ptrsLoop_trace.
Qed.

(** The verifier accepts exactly a confirmed PTR candidate. *)
Lemma isAllowedByFCrDNS_true w clientIP allowlist :
  (isAllowedByFCrDNS clientIP allowlist w).1 = true <->
  allowlist <> [] /\
  exists ptrs,
    LookupAddr w clientIP = inl ptrs /\ ptrs <> [] /\
    exists ptr allowed,
      ptr ∈ ptrs /\ allowed ∈ allowlist /\ forwardConfirmed w clientIP ptr allowed.
Proof.
  rewrite isAllowedByFCrDNS_run. destruct allowlist as [|a al].
  { simpl. split; [done|]. by intros [? _]. }
  destruct (LookupAddr w clientIP) as [[|ptr rest]|e] eqn:Hrev.
  - simpl. split; [done|]. intros (_ & ptrs & [= <-] & ? & _). done.
  - cbn [fst]. rewrite ptrsLoop_true. split.
    + intros Hex. split; [done|]. exists (ptr :: rest). done.
    + intros (_ & ptrs & [= <-] & _ & Hex). done.
  - simpl. split; [done|]. by intros (_ & ptrs & ? & _).
Qed.






End fcrdns_facts.


(** ** Facts about [filepath.Join] *)

Section path_facts.

#[local] Arguments strings.Contains : simpl never.
#[local] Arguments strings.Index : simpl never.

Lemma elements_nonempty path : filepath.elements path <> [].
Proof.
  destruct path as [|c rest]; simpl; [done|].
  case_bool_decide; [done|]. by destruct (filepath.elements rest).
Qed.

(** A separator between two paths separates their elements. *)
Lemma elements_app a b :
  filepath.elements (a +:+ "/" +:+ b) = (filepath.elements a ++ filepath.elements b)%list.
Proof.
  induction a as [|c a IH]; simpl; [done|].
  case_bool_decide.
  - simpl. by f_equal.
  - simpl in IH. rewrite IH.
    pose proof (elements_nonempty a).
    by destruct (filepath.elements a).
Qed.

Lemma Contains_byte_head c s :
  strings.Contains (String c s) (String c "") = true.
Proof. apply Contains_spec. by exists "", s. Qed.

Lemma Contains_byte_tail a c s :
  strings.Contains (String a s) (String c "") = false ->
  a <> c /\ strings.Contains s (String c "") = false.
Proof.
  intros Hno. split.
  - intros ->. by rewrite Contains_byte_head in Hno.
  - by apply Contains_false_String in Hno as [_ ?].
Qed.

(** A string without separator is one element. *)
Lemma elements_plain e :
  strings.Contains e "/" = false -> filepath.elements e = [e].
Proof.
  induction e as [|c e IH]; [done|].
  intros [Hc He]%Contains_byte_tail. simpl.
  rewrite bool_decide_eq_false_2 by done. by rewrite IH.
Qed.

Lemma Join_cons2 e e' rest sep :
  strings.Join (e :: e' :: rest) sep = e +:+ sep +:+ strings.Join (e' :: rest) sep.
Proof. done. Qed.

Lemma Join_app_ne A B sep :
  A <> [] -> B <> [] ->
  strings.Join (A ++ B) sep = strings.Join A sep +:+ sep +:+ strings.Join B sep.
Proof.
  intros HA HB. induction A as [|a A IH]; [done|].
  destruct A as [|a' A].
  - destruct B; [done|]. done.
  - change ((a :: a' :: A) ++ B)%list with (a :: a' :: (A ++ B))%list.
    rewrite !Join_cons2.
    change (a' :: (A ++ B))%list with ((a' :: A) ++ B)%list.
    rewrite IH by done. by rewrite !app_assoc'.
Qed.

(** The elements held by the buffer. *)
Lemma bufString_elements rooted out :
  filepath.bufString rooted out =
  let els := (replicate (filepath.dotdots out) ".." ++ reverse (filepath.names out))%list in
  if rooted then "/" +:+ strings.Join els "/"
  else match els with [] => "." | _ => strings.Join els "/" end.
Proof. done. Qed.

(** Appending real elements to a buffer appends them to its string. *)
Lemma bufString_push rooted out rel :
  rel <> [] ->
  let out' := {| filepath.dotdots := filepath.dotdots out;
                 filepath.names := (reverse rel ++ filepath.names out)%list |} in
  filepath.bufString rooted out' =
    filepath.bufString rooted out +:+ "/" +:+ strings.Join rel "/"
  \/ (filepath.bufString rooted out = "/" /\
      filepath.bufString rooted out' = "/" +:+ strings.Join rel "/")
  \/ (filepath.bufString rooted out = "." /\
      filepath.bufString rooted out' = strings.Join rel "/").
Proof.
  intros Hrel out'. rewrite !bufString_elements. subst out'. cbn [filepath.dotdots filepath.names].
  rewrite reverse_app, reverse_involutive, (assoc_L (++)%list).
  set (els := (replicate (filepath.dotdots out) ".." ++ reverse (filepath.names out))%list).
  cbv zeta.
  destruct els as [|e els'] eqn:Hels.
  - rewrite app_nil_l. destruct rooted.
    + right; left. done.
    + right; right. split; [done|]. by destruct rel.
  - left. rewrite Join_app_ne by done. destruct rooted.
    + by rewrite !app_assoc'.
    + done.
Qed.

Lemma cleanElement_plain rooted out e :
  plainName e ->
  filepath.cleanElement rooted out e =
  {| filepath.dotdots := filepath.dotdots out; filepath.names := e :: filepath.names out |}.
Proof.
  intros (? & ? & ? & _). unfold filepath.cleanElement.
  by rewrite !bool_decide_eq_false_2 by done.
Qed.

Lemma cleanElement_skip rooted out e :
  e = "" \/ e = "." -> filepath.cleanElement rooted out e = out.
Proof. by intros [-> | ->]. Qed.

Lemma byteAt_0_app c s t : byteAt (String c s +:+ t) 0 = Some c.
Proof. done. Qed.

(** A string without separator does not start with one. *)
Lemma plain_not_rooted e :
  strings.Contains e "/" = false -> byteAt e 0 <> Some "/"%char.
Proof.
  destruct e as [|c e]; [done|].
  intros [Hc _]%Contains_byte_tail [= ->]. done.
Qed.

(** [Join] of a root and two elements without separator: clean the root,
    then process the two elements. *)
Lemma Join3_buffer root d f :
  strings.Contains d "/" = false -> strings.Contains f "/" = false -> f <> "" ->
  exists rooted out,
    filepath.Clean root = filepath.bufString rooted out /\
    filepath.Join [root; d; f] =
      filepath.bufString rooted (foldl (filepath.cleanElement rooted) out [d; f]).
Proof.
  intros Hd Hf Hfne.
  destruct root as [|c root].
  - exists false, {| filepath.dotdots := 0; filepath.names := [] |}.
    split; [done|]. cbn [filepath.Join]. rewrite (bool_decide_eq_true_2 ("" = "")) by done.
    destruct d as [|cd d].
    + rewrite (bool_decide_eq_true_2 ("" = "")) by done.
      rewrite bool_decide_eq_false_2 by done.
      unfold strings.Join, filepath.Clean.
      rewrite bool_decide_eq_false_2 by done.
      rewrite (bool_decide_eq_false_2 (byteAt f 0 = _)) by by apply plain_not_rooted.
      by rewrite elements_plain.
    + rewrite bool_decide_eq_false_2 by done.
      unfold filepath.Clean. rewrite bool_decide_eq_false_2 by done.
      rewrite Join_cons2. cbn [strings.Join].
      rewrite (bool_decide_eq_false_2 (byteAt _ 0 = _)).
      2:{ rewrite byteAt_0_app. intros [= ->]. by rewrite Contains_byte_head in Hd. }
      by rewrite elements_app, !elements_plain.
  - set (rooted := bool_decide (Some c = Some "/"%char)).
    exists rooted,
      (foldl (filepath.cleanElement rooted) {| filepath.dotdots := 0; filepath.names := [] |}
             (filepath.elements (String c root))).
    split.
    + unfold filepath.Clean. by rewrite bool_decide_eq_false_2 by done.
    + cbn [filepath.Join]. rewrite bool_decide_eq_false_2 by done.
      unfold filepath.Clean. rewrite !Join_cons2. cbn [strings.Join].
      rewrite bool_decide_eq_false_2 by done.
      rewrite byteAt_0_app. fold rooted.
      rewrite elements_app, elements_app, (elements_plain d), (elements_plain f) by done.
      by rewrite foldl_app.
Qed.

Lemma Contains_dotdot : strings.Contains ".." ".." = true.
Proof. by vm_compute. Qed.

(** What the two validated segments add to the buffer. *)
Lemma clean_segments rooted out d f :
  strings.Contains d ".." = false -> strings.Contains d "/" = false -> plainName f ->
  exists rel, rel <> [] /\ Forall plainName rel /\
    foldl (filepath.cleanElement rooted) out [d; f] =
    {| filepath.dotdots := filepath.dotdots out;
       filepath.names := (reverse rel ++ filepath.names out)%list |}.
Proof.
  intros Hdd Hsl Hf. cbn [foldl].
  destruct (decide (d = "" \/ d = ".")) as [Hskip|Hreal].
  - exists [f]. split; [done|]. split; [by apply Forall_singleton|].
    rewrite (cleanElement_skip _ _ d) by done. by rewrite cleanElement_plain.
  - assert (plainName d) as Hd.
    { repeat split; try tauto. intros ->. by rewrite Contains_dotdot in Hdd. }
    exists [d; f]. split; [done|]. split; [by repeat apply Forall_cons_2|].
    by rewrite !cleanElement_plain.
Qed.

(** The file names of [allowedCertFiles]. *)
Lemma allowedCertFile_true fileName :
  allowedCertFile fileName = true <->
  fileName = "fullchain.pem" \/ fileName = "privkey.pem" \/
  fileName = "cert.pem" \/ fileName = "chain.pem".
Proof.
  unfold allowedCertFile, allowedCertFiles.
  rewrite !lookup_insert, lookup_empty.
  repeat (case_decide; [subst; simpl; split; [intros _; auto 6|done]|]).
  simpl. split; [done|]. intros [?|[?|[?|?]]]; congruence.
Qed.

Lemma allowedCertFile_plain fileName :
  allowedCertFile fileName = true -> plainName fileName.
Proof.
  intros Hf. apply allowedCertFile_true in Hf as [ -> | [ -> | [ -> | -> ] ] ];
    repeat split; by vm_compute.
Qed.

(** The join of a root with validated segments lies beneath the root. *)
Lemma Join_beneath root domain fileName :
  strings.Contains domain ".." = false -> strings.Contains domain "/" = false ->
  allowedCertFile fileName = true ->
  beneath root (filepath.Join [root; domain; fileName]).
Proof.
  intros Hdd Hsl Hf%allowedCertFile_plain.
  destruct (Join3_buffer root domain fileName) as (rooted & out & Hroot & Hjoin);
    [done|apply Hf|apply Hf|].
  destruct (clean_segments rooted out domain fileName) as (rel & Hne & Hrel & Hfold);
    [done..|].
  exists rel. split; [done|]. split; [done|].
  rewrite Hjoin, Hfold, Hroot. by apply bufString_push.
Qed.

Lemma Join_plain_nonempty rel :
  rel <> [] -> Forall plainName rel -> strings.Join rel "/" <> "".
Proof.
  intros Hne Hall. destruct rel as [|e rel]; [done|].
  apply Forall_cons in Hall as [(He & _) _].
  destruct rel; [done|]. rewrite Join_cons2. by destruct e.
Qed.

(** For a root in clean form, "beneath" is a proper prefix of strings. *)
Lemma beneath_properPrefix root p :
  filepath.Clean root = root -> root <> "." -> beneath root p -> properPrefix root p.
Proof.
  intros Hclean Hdot (rel & Hne & Hall & Hp).
  pose proof (Join_plain_nonempty rel Hne Hall) as Hrel.
  rewrite Hclean in Hp. destruct Hp as [->|[[-> ->]|[-> _]]]; [| |done].
  - by exists ("/" +:+ strings.Join rel "/").
  - by exists (strings.Join rel "/").
Qed.

End path_facts.


(** ** The handler refines its stage specification *)

Section stage_facts.
Context `{!strings.Folding}.

#[local] Arguments filepath.Join : simpl never.
#[local] Arguments strings.Contains : simpl never.

Lemma cutsInto_unique path d1 f1 d2 f2 :
  cutsInto path d1 f1 -> cutsInto path d2 f2 -> d1 = d2 /\ f1 = f2.
Proof.
  intros H1 H2.
  apply (SplitN2_cut path "/"%char) in H1, H2. rewrite H1 in H2.
  by injection H2.
Qed.

(** The handler refines the stage specification. *)
Lemma CertsHandler_outcome bearerToken dnsAllowlist certsBaseDir r w :
  outcome bearerToken dnsAllowlist certsBaseDir r w
    (CertsHandler bearerToken dnsAllowlist certsBaseDir r w).1
    (CertsHandler bearerToken dnsAllowlist certsBaseDir r w).2.
Proof.
  unfold CertsHandler. case_bool_decide as Hauth.
  { by apply out_unauthorized. }
  destruct (net.SplitHostPort (http.RemoteAddr r)) as [[clientIP port]|err] eqn:Hpeer.
  2:{ by apply out_bad_peer. }
  rewrite bind_run.
  destruct (isAllowedByFCrDNS clientIP dnsAllowlist w) as [[|] t] eqn:Hdns; simpl.
  2:{ by eapply out_denied. }
  assert (authorized bearerToken dnsAllowlist r w clientIP t) as Hok.
  { split; [done|]. split; [by exists port|done]. }
  fold (requestPath r).
  destruct (SplitN2_length (requestPath r) "/"%char) as [Hlen|Hone].
  - destruct (strings.SplitN (requestPath r) "/" 2) as [|d [|f [|]]] eqn:Hparts;
      try done.
    apply SplitN2_cut in Hparts. simpl.
    case_bool_decide as Hd; simpl.
    { rewrite app_nil_r. eapply out_bad_shape; [done|]. intros d' f' Hcut.
      destruct (cutsInto_unique _ _ _ _ _ Hparts Hcut) as [<- <-]. by left. }
    case_bool_decide as Hf; simpl.
    { rewrite app_nil_r. eapply out_bad_shape; [done|]. intros d' f' Hcut.
      destruct (cutsInto_unique _ _ _ _ _ Hparts Hcut) as [<- <-]. by right. }
    destruct (strings.Contains d ".." || strings.Contains d "/"
              || strings.Contains d "\") eqn:Htrav; simpl.
    { rewrite app_nil_r. eapply out_traversal with (domain := d) (fileName := f);
        [done|exact Hparts|done|done|].
      unfold traversal. apply orb_true_iff in Htrav as [Htrav|Htrav]; [|by (right; right)].
      apply orb_true_iff in Htrav as [Htrav|Htrav]; [by left|by (right; left)]. }
    apply orb_false_iff in Htrav as [Htrav Hbs].
    apply orb_false_iff in Htrav as [Hdd Hsl].
    assert (wellFormed r d f) as Hwf.
    { split; [exact Hparts|]. repeat split; try done.
      unfold traversal. intros [?|[?|?]]; congruence. }
    destruct (allowedCertFile f) eqn:Hfile; simpl.
    2:{ rewrite app_nil_r. by eapply out_not_allowed with (domain := d) (fileName := f). }
    rewrite bind_run. unfold osReadFile.
    destruct (ReadFile w (filepath.Join [certsBaseDir; d; f])) as [data|err] eqn:Hread;
      simpl.
    + by eapply out_served with (domain := d) (fileName := f).
    + destruct (IsNotExist err) eqn:Hne; simpl.
      * by eapply out_absent with (domain := d) (fileName := f).
      * by eapply out_io_error with (domain := d) (fileName := f).
  - rewrite Hone. simpl. rewrite app_nil_r. eapply out_bad_shape; [done|].
    intros d' f' Hcut. apply (SplitN2_cut _ "/"%char) in Hcut. congruence.
Qed.

Lemma authorized_unique bearerToken dnsAllowlist r w ip1 t1 ip2 t2 :
  authorized bearerToken dnsAllowlist r w ip1 t1 ->
  authorized bearerToken dnsAllowlist r w ip2 t2 ->
  ip1 = ip2 /\ t1 = t2.
Proof.
  intros (_ & [p1 H1] & Hv1) (_ & [p2 H2] & Hv2).
  rewrite H1 in H2. injection H2 as <- _. rewrite Hv1 in Hv2. by injection Hv2.
Qed.

Lemma authorized_not_denied bearerToken dnsAllowlist r w ip t ip' port t' :
  authorized bearerToken dnsAllowlist r w ip t ->
  net.SplitHostPort (http.RemoteAddr r) = inl (ip', port) ->
  isAllowedByFCrDNS ip' dnsAllowlist w = (false, t') -> False.
Proof.
  intros (_ & [p1 H1] & Hv1) H2 Hv2.
  rewrite H1 in H2. injection H2 as <- _. congruence.
Qed.

Lemma authorized_peer bearerToken dnsAllowlist r w ip t err :
  authorized bearerToken dnsAllowlist r w ip t ->
  net.SplitHostPort (http.RemoteAddr r) = inr err -> False.
Proof. intros (_ & [p1 H1] & _) H2. congruence. Qed.

Lemma wellFormed_unique r d1 f1 d2 f2 :
  wellFormed r d1 f1 -> cutsInto (requestPath r) d2 f2 -> d2 = d1 /\ f2 = f1.
Proof.
  intros [Hc _] Hc2. by destruct (cutsInto_unique _ _ _ _ _ Hc Hc2) as [-> ->].
Qed.

(** Case analysis on a run of the handler. *)
Lemma CertsHandler_cases bearerToken dnsAllowlist certsBaseDir r w :
  exists resp tr,
    CertsHandler bearerToken dnsAllowlist certsBaseDir r w = (resp, tr) /\
    outcome bearerToken dnsAllowlist certsBaseDir r w resp tr.
Proof.
  pose proof (CertsHandler_outcome bearerToken dnsAllowlist certsBaseDir r w) as Hout.
  destruct (CertsHandler bearerToken dnsAllowlist certsBaseDir r w) as [resp tr].
  by exists resp, tr.
Qed.

(** Past the gates and the path checks, the handler is the file server. *)
Lemma CertsHandler_wellFormed bearerToken dnsAllowlist certsBaseDir r w
    clientIP t domain fileName :
  authorized bearerToken dnsAllowlist r w clientIP t ->
  wellFormed r domain fileName ->
  let certPath := filepath.Join [certsBaseDir; domain; fileName] in
  CertsHandler bearerToken dnsAllowlist certsBaseDir r w =
  if allowedCertFile fileName then
    match ReadFile w certPath with
    | inl data =>
        (pemResponse data,
         (t ++ [EvReadFile certPath; EvLog (LogServed certPath clientIP)])%list)
    | inr err =>
        if IsNotExist err then
          (http.Error "Not Found" http.StatusNotFound, (t ++ [EvReadFile certPath])%list)
        else
          (http.Error "Internal Server Error" http.StatusInternalServerError,
           (t ++ [EvReadFile certPath; EvLog (LogReadFailed certPath err)])%list)
    end
  else (http.Error "Not Found" http.StatusNotFound, t).
Proof.
  intros Hok Hwf certPath. subst certPath.
  destruct (CertsHandler_cases bearerToken dnsAllowlist certsBaseDir r w)
    as (resp & tr & -> & Hout).
  destruct Hout as [Hno|err Ha Hp|ip' port t' Ha Hp Hv|ip' t' Hok' Hshape
                   |ip' t' d f Hok' Hcut Hd Hf Htrav
                   |ip' t' d f Hok' Hwf' Hfile
                   |ip' t' d f err Hok' Hwf' Hfile Hread Hne
                   |ip' t' d f err Hok' Hwf' Hfile Hread Hne
                   |ip' t' d f data Hok' Hwf' Hfile Hread].
  - by destruct Hno, Hok.
  - by destruct (authorized_peer _ _ _ _ _ _ _ Hok Hp).
  - by destruct (authorized_not_denied _ _ _ _ _ _ _ _ _ Hok Hp Hv).
  - destruct Hwf as (Hcut & Hd & Hf & _). by destruct (Hshape _ _ Hcut).
  - destruct (wellFormed_unique _ _ _ _ _ Hwf Hcut) as [-> ->].
    by destruct Hwf as (_ & _ & _ & []).
  - destruct (authorized_unique _ _ _ _ _ _ _ _ Hok Hok') as [<- <-].
    destruct Hwf' as [Hcut _].
    destruct (wellFormed_unique _ _ _ _ _ Hwf Hcut) as [-> ->]. by rewrite Hfile.
  - destruct (authorized_unique _ _ _ _ _ _ _ _ Hok Hok') as [<- <-].
    destruct Hwf' as [Hcut _].
    destruct (wellFormed_unique _ _ _ _ _ Hwf Hcut) as [-> ->].
    by rewrite Hfile, Hread, Hne.
  - destruct (authorized_unique _ _ _ _ _ _ _ _ Hok Hok') as [<- <-].
    destruct Hwf' as [Hcut _].
    destruct (wellFormed_unique _ _ _ _ _ Hwf Hcut) as [-> ->].
    by rewrite Hfile, Hread, Hne.
  - destruct (authorized_unique _ _ _ _ _ _ _ _ Hok Hok') as [<- <-].
    destruct Hwf' as [Hcut _].
    destruct (wellFormed_unique _ _ _ _ _ Hwf Hcut) as [-> ->].
    by rewrite Hfile, Hread.
Qed.

Lemma authorized_trace bearerToken dnsAllowlist r w clientIP t :
  authorized bearerToken dnsAllowlist r w clientIP t ->
  Forall (fun e => isFileRead e = false) t.
Proof.
  intros (_ & _ & Hv).
  pose proof (isAllowedByFCrDNS_trace w clientIP dnsAllowlist) as Htr.
  rewrite Hv in Htr. eapply Forall_impl; [exact Htr|]. by intros [].
Qed.

Lemma wellFormed_not_bad r d f :
  wellFormed r d f ->
  (~ exists domain fileName,
       cutsInto (requestPath r) domain fileName /\ domain <> "" /\ fileName <> "")
  \/ (exists domain fileName,
       cutsInto (requestPath r) domain fileName /\ traversal domain) ->
  False.
Proof.
  intros Hwf [Hno|(d' & f' & Hcut & Htrav)].
  - destruct Hwf as (? & ? & ? & _). apply Hno. by exists d, f.
  - destruct (wellFormed_unique _ _ _ _ _ Hwf Hcut) as [-> ->].
    by destruct Hwf as (_ & _ & _ & []).
Qed.

Lemma wellFormed_clean r d f :
  wellFormed r d f ->
  strings.Contains d ".." = false /\ strings.Contains d "/" = false.
Proof.
  intros (_ & _ & _ & Hno). unfold traversal in Hno.
  split; apply not_true_is_false; tauto.
Qed.

(** Every file the handler reads lies beneath its certificate root. *)
Lemma CertsHandler_reads_beneath bearerToken dnsAllowlist certsBaseDir r w name :
  EvReadFile name ∈ (CertsHandler bearerToken dnsAllowlist certsBaseDir r w).2 ->
  beneath certsBaseDir name.
Proof.
  destruct (CertsHandler_cases bearerToken dnsAllowlist certsBaseDir r w)
    as (resp & tr & -> & Hout).
  cbn [snd].
  assert (forall ip t, authorized bearerToken dnsAllowlist r w ip t ->
                       EvReadFile name ∈ t -> False) as Hdns.
  { intros ip t Hok Hin. apply authorized_trace in Hok.
    rewrite Forall_forall in Hok. by specialize (Hok _ Hin). }
  assert (forall d f, wellFormed r d f -> allowedCertFile f = true ->
            beneath certsBaseDir (filepath.Join [certsBaseDir; d; f])) as Hjoin.
  { intros d f [? ?]%wellFormed_clean ?. by apply Join_beneath. }
  destruct Hout as [Hno|err Ha Hp|ip' port t' Ha Hp Hv|ip' t' Hok' Hshape
                   |ip' t' d f Hok' Hcut Hd Hf Htrav
                   |ip' t' d f Hok' Hwf' Hfile
                   |ip' t' d f err Hok' Hwf' Hfile Hread Hne
                   |ip' t' d f err Hok' Hwf' Hfile Hread Hne
                   |ip' t' d f data Hok' Hwf' Hfile Hread];
    rewrite ?elem_of_app, ?elem_of_cons, ?elem_of_nil.
  - done.
  - by intros [?|?].
  - intros [Hin|[?|?]]; try done.
    pose proof (isAllowedByFCrDNS_trace w ip' dnsAllowlist) as Htr.
    rewrite Hv, Forall_forall in Htr. by specialize (Htr _ Hin).
  - intros Hin. by destruct (Hdns _ _ Hok' Hin).
  - intros Hin. by destruct (Hdns _ _ Hok' Hin).
  - intros Hin. by destruct (Hdns _ _ Hok' Hin).
  - intros [Hin|[[= ->]|?]]; [by destruct (Hdns _ _ Hok' Hin)| |done]. by apply Hjoin.
  - intros [Hin|[[= ->]|[?|?]]]; [by destruct (Hdns _ _ Hok' Hin)| |done|done].
    by apply Hjoin.
  - intros [Hin|[[= ->]|[?|?]]]; [by destruct (Hdns _ _ Hok' Hin)| |done|done].
    by apply Hjoin.
Qed.



(** The verifier and the handler depend on the world through its answers
    only. *)
Lemma allowlistLoop_sameAnswers w w' clientIP hostname allowlist :
  sameAnswers w w' ->
  allowlistLoop clientIP hostname allowlist w' = allowlistLoop clientIP hostname allowlist w.
Proof.
  intros (_ & Hfwd & _). induction allowlist as [|allowed rest IH]; [done|].
  by rewrite !allowlistLoop_cons, IH, Hfwd.
Qed.

Lemma ptrsLoop_sameAnswers w w' clientIP allowlist ptrs :
  sameAnswers w w' ->
  ptrsLoop clientIP allowlist ptrs w' = ptrsLoop clientIP allowlist ptrs w.
Proof.
  intros Hsame. induction ptrs as [|ptr rest IH]; [done|].
  by rewrite !ptrsLoop_cons, IH, (allowlistLoop_sameAnswers w w').
Qed.

Lemma isAllowedByFCrDNS_sameAnswers w w' clientIP allowlist :
  sameAnswers w w' ->
  isAllowedByFCrDNS clientIP allowlist w' = isAllowedByFCrDNS clientIP allowlist w.
Proof.
  intros Hsame. rewrite !isAllowedByFCrDNS_run.
  destruct allowlist as [|a al]; [done|].
  rewrite <- (proj1 Hsame clientIP).
  destruct (LookupAddr w clientIP) as [[|ptr rest]|e]; try done.
  by rewrite (ptrsLoop_sameAnswers w w').
Qed.

Lemma CertsHandler_sameAnswers bearerToken dnsAllowlist certsBaseDir r w w' :
  sameAnswers w w' ->
  CertsHandler bearerToken dnsAllowlist certsBaseDir r w'
  = CertsHandler bearerToken dnsAllowlist certsBaseDir r w.
Proof.
  intros Hsame. unfold CertsHandler.
  case_bool_decide; [done|].
  destruct (net.SplitHostPort (http.RemoteAddr r)) as [[clientIP port]|err]; [|done].
  rewrite !bind_run, (isAllowedByFCrDNS_sameAnswers w w') by done.
  destruct (isAllowedByFCrDNS clientIP dnsAllowlist w) as [[|] t]; [|done].
  cbn [negb].
  repeat match goal with |- context [if ?b then _ else _] => destruct b; [done|] end.
  rewrite !bind_run. unfold osReadFile.
  destruct Hsame as (_ & _ & Hfile). rewrite <- Hfile.
  match goal with |- context [ReadFile w ?p] => destruct (ReadFile w p) as [data|err] end;
    [done|].
  by destruct (IsNotExist err).
Qed.

End stage_facts.


(** ** Scenarios of the specification *)

Section scenarios.

(** Scenario A: everything in order, the file is served. *)
Example scenario_A :
  demo.handler demo.dnsAllowlist (demo.get "/certs/example.org/fullchain.pem") demo.world
  = (pemResponse demo.pem,
     (demo.lookups ++
      [EvReadFile "/etc/letsencrypt/live/example.org/fullchain.pem";
       EvLog (LogServed "/etc/letsencrypt/live/example.org/fullchain.pem"
                        "203.0.113.5")])%list).
Proof. by vm_compute. Qed.

(** Scenario B: the forward lookup does not confirm the address. *)
Example scenario_B :
  demo.handler demo.dnsAllowlist (demo.get "/certs/example.org/fullchain.pem")
    demo.mismatchedWorld
  = (http.Error "Forbidden" 403, (demo.lookups ++ [EvLog (LogDenied "203.0.113.5")])%list).
Proof. by vm_compute. Qed.

(** Scenario C: a parent-directory marker in the domain segment. *)
Example scenario_C :
  demo.handler demo.dnsAllowlist (demo.get "/certs/../etc/passwd/fullchain.pem") demo.world
  = (http.Error "Bad Request" 400, demo.lookups).
Proof. by vm_compute. Qed.

(** Scenario D: a file name outside the allowed set, present on disk. *)
Example scenario_D :
  demo.handler demo.dnsAllowlist (demo.get "/certs/example.org/secret.txt") demo.world
  = (http.Error "Not Found" 404, demo.lookups).
Proof. by vm_compute. Qed.

(** Scenario E: no Authorization header. *)
Example scenario_E :
  demo.handler demo.dnsAllowlist
    (demo.request "GET" "/certs/example.org/fullchain.pem" "203.0.113.5:40312" None)
    demo.world
  = (http.Error "Unauthorized" 401, []).
Proof. by vm_compute. Qed.

End scenarios.


(** ** The claims *)

Section claims.
Context `{!strings.Folding}.

(** C1.  The FCrDNS verifier accepts a client address exactly when the
    allowlist is not empty, the reverse lookup of the address succeeds with at
    least one PTR candidate, and for some candidate the hostname (the
    candidate without its trailing dot) equals an allowlist entry under case
    folding and the forward resolution of that hostname succeeds with
    addresses among which is the client address.  With an empty allowlist the
    verifier rejects without any lookup. *)
Theorem fcrdns_accepts_iff (w : World) (clientIP : string) (allowlist : list string) :
  ((isAllowedByFCrDNS clientIP allowlist w).1 = true <->
   allowlist <> [] /\
   exists ptrs,
     LookupAddr w clientIP = inl ptrs /\ ptrs <> [] /\
     exists ptr allowed addrs,
       ptr ∈ ptrs /\ allowed ∈ allowlist /\
       strings.EqualFold (strings.TrimSuffix ptr ".") allowed = true /\
       LookupHost w (strings.TrimSuffix ptr ".") = inl addrs /\
       clientIP ∈ addrs)
  /\ isAllowedByFCrDNS clientIP [] w = (false, []).
Proof.
  split; [|done].
  rewrite isAllowedByFCrDNS_true. unfold forwardConfirmed. split.
  - intros (Hne & ptrs & Hrev & Hptrs & ptr & allowed & Hp & Ha & Hfold & addrs & Hfwd & Hin).
    split; [done|]. exists ptrs. repeat split; try done.
    by exists ptr, allowed, addrs.
  - intros (Hne & ptrs & Hrev & Hptrs & ptr & allowed & addrs & Hp & Ha & Hfold & Hfwd & Hin).
    split; [done|]. exists ptrs. repeat split; try done.
    exists ptr, allowed. repeat split; try done. by exists addrs.
Qed.

(** C2.  For every root, every domain segment without "..", "/" and "\",
    and every allowed file name, the path joined from the three lies beneath
    the root: it is the cleaned root followed by a non-empty path of plain
    names, and a root that is already clean is a proper prefix of it.  The
    handler reads no file that is not beneath its certificate root. *)
Theorem cert_path_is_beneath_root (root domain fileName : string) :
  strings.Contains domain ".." = false ->
  strings.Contains domain "/" = false ->
  strings.Contains domain "\" = false ->
  allowedCertFile fileName = true ->
  beneath root (filepath.Join [root; domain; fileName])
  /\ (filepath.Clean root = root -> root <> "." ->
      properPrefix root (filepath.Join [root; domain; fileName]))
  /\ (forall bearerToken dnsAllowlist r w name,
        EvReadFile name ∈ (CertsHandler bearerToken dnsAllowlist root r w).2 ->
        beneath root name).
Proof.
  intros Hdd Hsl _ Hfile.
  pose proof (Join_beneath root domain fileName Hdd Hsl Hfile) as Hb.
  split; [done|]. split; [intros; by apply beneath_properPrefix|].
  intros bearerToken dnsAllowlist r w name.
  apply CertsHandler_reads_beneath.
Qed.

(** C3.  A request whose Authorization header is missing, or differs from
    "Bearer " followed by the configured secret, is answered 401 whatever its
    path, its peer address, the resolver and the file system are; nothing is
    looked up, read or logged before the answer. *)
Theorem unauthenticated_is_401 (bearerToken : string) (dnsAllowlist : list string)
    (certsBaseDir : string) (r : http.Request) (w : World) :
  http.ReqHeader r !! "Authorization" = None
  \/ http.Get (http.ReqHeader r) "Authorization" <> "Bearer " +:+ bearerToken ->
  CertsHandler bearerToken dnsAllowlist certsBaseDir r w
    = (http.Error "Unauthorized" http.StatusUnauthorized, [])
  /\ http.StatusCode (CertsHandler bearerToken dnsAllowlist certsBaseDir r w).1 = 401.
Proof.
  intros Hbad.
  assert (http.Get (http.ReqHeader r) "Authorization" <> "Bearer " +:+ bearerToken) as Hne.
  { destruct Hbad as [Hmissing|Hne]; [|done]. unfold http.Get. by rewrite Hmissing. }
  unfold CertsHandler. by rewrite bool_decide_eq_true_2.
Qed.

(** C4.  For an authenticated and FCrDNS-authorized request, the answer is
    400 exactly when the path after the routing prefix does not split on its
    first separator into two non-empty segments, or the domain segment holds
    "..", "/" or "\".  A 400 is given after the lookups of the verifier
    alone: no file is read for it. *)
Theorem bad_request_iff (bearerToken : string) (dnsAllowlist : list string)
    (certsBaseDir : string) (r : http.Request) (w : World)
    (clientIP : string) (t : list Event) :
  authorized bearerToken dnsAllowlist r w clientIP t ->
  let run := CertsHandler bearerToken dnsAllowlist certsBaseDir r w in
  (http.StatusCode run.1 = 400 <->
     (~ exists domain fileName,
          cutsInto (requestPath r) domain fileName /\ domain <> "" /\ fileName <> "")
     \/ (exists domain fileName,
          cutsInto (requestPath r) domain fileName /\ traversal domain))
  /\ (http.StatusCode run.1 = 400 ->
      run.2 = t /\ Forall (fun e => isFileRead e = false) run.2).
Proof.
  intros Hok run. subst run.
  pose proof (authorized_trace _ _ _ _ _ _ Hok) as Ht.
  destruct (CertsHandler_cases bearerToken dnsAllowlist certsBaseDir r w)
    as (resp & tr & -> & Hout).
  cbn [fst snd].
  destruct Hout as [Hno|err Ha Hp|ip' port t' Ha Hp Hv|ip' t' Hok' Hshape
                   |ip' t' d f Hok' Hcut Hd Hf Htrav
                   |ip' t' d f Hok' Hwf' Hfile
                   |ip' t' d f err Hok' Hwf' Hfile Hread Hne
                   |ip' t' d f err Hok' Hwf' Hfile Hread Hne
                   |ip' t' d f data Hok' Hwf' Hfile Hread].
  - by destruct Hno, Hok.
  - by destruct (authorized_peer _ _ _ _ _ _ _ Hok Hp).
  - by destruct (authorized_not_denied _ _ _ _ _ _ _ _ _ Hok Hp Hv).
  - destruct (authorized_unique _ _ _ _ _ _ _ _ Hok Hok') as [<- <-].
    split; [|done]. split; [intros _|done].
    left. intros (d & f & Hcut & Hd & Hf). by destruct (Hshape _ _ Hcut).
  - destruct (authorized_unique _ _ _ _ _ _ _ _ Hok Hok') as [<- <-].
    split; [|done]. split; [intros _|done]. right. by exists d, f.
  - split; [|done]. split; [done|]. intros Hbad. by destruct (wellFormed_not_bad _ _ _ Hwf' Hbad).
  - split; [|done]. split; [done|]. intros Hbad. by destruct (wellFormed_not_bad _ _ _ Hwf' Hbad).
  - split; [|done]. split; [done|]. intros Hbad. by destruct (wellFormed_not_bad _ _ _ Hwf' Hbad).
  - split; [|done]. split; [done|]. intros Hbad. by destruct (wellFormed_not_bad _ _ _ Hwf' Hbad).
Qed.

(** C5, as amended.  For an authenticated and FCrDNS-authorized request whose
    path splits into a non-empty domain segment without "..", "/" and "\" and
    a non-empty file-name segment: when the file-name segment is not one of
    fullchain.pem, privkey.pem, cert.pem, chain.pem (compared byte for byte)
    the answer is 404, not 400, and no file is read, whatever the file system
    holds. *)
Theorem disallowed_file_is_404 (bearerToken : string) (dnsAllowlist : list string)
    (certsBaseDir : string) (r : http.Request) (w : World)
    (clientIP : string) (t : list Event) (domain fileName : string) :
  authorized bearerToken dnsAllowlist r w clientIP t ->
  wellFormed r domain fileName ->
  fileName ∉ ["fullchain.pem"; "privkey.pem"; "cert.pem"; "chain.pem"] ->
  CertsHandler bearerToken dnsAllowlist certsBaseDir r w
    = (http.Error "Not Found" http.StatusNotFound, t)
  /\ http.StatusCode (CertsHandler bearerToken dnsAllowlist certsBaseDir r w).1 = 404
  /\ http.StatusCode (CertsHandler bearerToken dnsAllowlist certsBaseDir r w).1 <> 400
  /\ Forall (fun e => isFileRead e = false)
            (CertsHandler bearerToken dnsAllowlist certsBaseDir r w).2.
Proof.
  intros Hok Hwf Hname.
  assert (allowedCertFile fileName = false) as Hfile.
  { destruct (allowedCertFile fileName) eqn:E; [|done].
    apply allowedCertFile_true in E. destruct Hname.
    rewrite !elem_of_cons. tauto. }
  rewrite (CertsHandler_wellFormed _ _ _ _ _ _ _ _ _ Hok Hwf), Hfile.
  repeat split; try done.
  destruct Hok as (_ & _ & Hv). simpl.
  pose proof (isAllowedByFCrDNS_trace w clientIP dnsAllowlist) as Htr.
  rewrite Hv in Htr. eapply Forall_impl; [exact Htr|].
  intros [] ?; done.
Qed.

(** C6.  For a fully validated request whose file cannot be read: when the
    file does not exist the answer is 404; on any other error the answer is
    500 with the fixed body "Internal Server Error", in which the path does
    not appear, and the path and the error go to the log. *)
Theorem read_failure_is_404_or_500 (bearerToken : string) (dnsAllowlist : list string)
    (certsBaseDir : string) (r : http.Request) (w : World)
    (clientIP : string) (t : list Event) (domain fileName : string) (err : PathError) :
  authorized bearerToken dnsAllowlist r w clientIP t ->
  wellFormed r domain fileName ->
  allowedCertFile fileName = true ->
  ReadFile w (filepath.Join [certsBaseDir; domain; fileName]) = inr err ->
  let certPath := filepath.Join [certsBaseDir; domain; fileName] in
  let run := CertsHandler bearerToken dnsAllowlist certsBaseDir r w in
  (IsNotExist err = true ->
     run = (http.Error "Not Found" http.StatusNotFound, (t ++ [EvReadFile certPath])%list)
     /\ http.StatusCode run.1 = 404)
  /\ (IsNotExist err = false ->
     run = (http.Error "Internal Server Error" http.StatusInternalServerError,
            (t ++ [EvReadFile certPath; EvLog (LogReadFailed certPath err)])%list)
     /\ http.StatusCode run.1 = 500
     /\ http.Body run.1 = "Internal Server Error" +:+ String "010" "").
Proof.
  intros Hok Hwf Hfile Hread certPath run. subst run certPath.
  rewrite (CertsHandler_wellFormed _ _ _ _ _ _ _ _ _ Hok Hwf), Hfile, Hread.
  split; intros ->; done.
Qed.


(** C8.  An authorized request for an existing file is answered 200 with
    Content-Type application/x-pem-file and the bytes of the file as body;
    repeating the request any number of times under the same configuration
    gives that answer each time, and two worlds that give the same resolver
    answers and file contents give the same run. *)
Theorem served_file_is_deterministic (bearerToken : string) (dnsAllowlist : list string)
    (certsBaseDir : string) (r : http.Request) (w : World)
    (clientIP : string) (t : list Event) (domain fileName data : string) :
  authorized bearerToken dnsAllowlist r w clientIP t ->
  wellFormed r domain fileName ->
  allowedCertFile fileName = true ->
  ReadFile w (filepath.Join [certsBaseDir; domain; fileName]) = inl data ->
  let resp := (CertsHandler bearerToken dnsAllowlist certsBaseDir r w).1 in
  http.StatusCode resp = 200
  /\ http.Get (http.RespHeader resp) "Content-Type" = "application/x-pem-file"
  /\ http.Body resp = data
  /\ (forall n : nat,
        serveAll bearerToken dnsAllowlist certsBaseDir w (replicate n r)
        = replicate n (pemResponse data))
  /\ (forall w' : World,
        sameAnswers w w' ->
        CertsHandler bearerToken dnsAllowlist certsBaseDir r w'
        = CertsHandler bearerToken dnsAllowlist certsBaseDir r w).
Proof.
  intros Hok Hwf Hfile Hread resp.
  assert (resp = pemResponse data) as Hresp.
  { subst resp. by rewrite (CertsHandler_wellFormed _ _ _ _ _ _ _ _ _ Hok Hwf), Hfile, Hread. }
  rewrite Hresp. repeat split; try done.
  - intros n. unfold serveAll. induction n as [|n IH]; [done|].
    simpl. fold resp. by rewrite Hresp, IH.
  - intros w' Hsame. by apply CertsHandler_sameAnswers.
Qed.

(** C9.  Two requests with the same path, headers and peer address get the
    same run of the handler, whatever their methods are. *)
Theorem method_is_ignored (bearerToken : string) (dnsAllowlist : list string)
    (certsBaseDir : string) (r1 r2 : http.Request) (w : World) :
  http.URLPath r1 = http.URLPath r2 ->
  http.ReqHeader r1 = http.ReqHeader r2 ->
  http.RemoteAddr r1 = http.RemoteAddr r2 ->
  CertsHandler bearerToken dnsAllowlist certsBaseDir r1 w
  = CertsHandler bearerToken dnsAllowlist certsBaseDir r2 w.
Proof.
  intros Hpath Hheader Hpeer. unfold CertsHandler.
  by rewrite Hpath, Hheader, Hpeer.
Qed.

(** C10.  The forward confirmation is equality of strings: the innermost loop
    accepts exactly when some forward-lookup result is the host part of the
    peer address, byte for byte, so an authorized request has such a result.
    Nothing is normalized: a peer "::1" whose name resolves to
    "0:0:0:0:0:0:0:1" is answered 403. *)
Theorem forward_confirmation_is_string_equality (bearerToken : string)
    (dnsAllowlist : list string) (r : http.Request) (w : World)
    (clientIP : string) (t : list Event) :
  authorized bearerToken dnsAllowlist r w clientIP t ->
  (forall addrs, addrsLoop clientIP addrs = true <->
                 exists i : nat, addrs !! i = Some clientIP)
  /\ (exists port ptrs ptr allowed addrs (i : nat),
        net.SplitHostPort (http.RemoteAddr r) = inl (clientIP, port) /\
        LookupAddr w clientIP = inl ptrs /\ ptr ∈ ptrs /\ allowed ∈ dnsAllowlist /\
        LookupHost w (strings.TrimSuffix ptr ".") = inl addrs /\
        addrs !! i = Some clientIP)
  /\ demo.handler demo.loopbackAllowlist
       (demo.request "GET" "/certs/example.org/fullchain.pem" "[::1]:40312"
                     (Some "Bearer s3cret"))
       demo.loopbackWorld
     = (http.Error "Forbidden" http.StatusForbidden,
        [EvLookupAddr "::1"; EvLookupHost "localhost"; EvLog (LogDenied "::1")]).
Proof.
  intros (_ & [port Hpeer] & Hv).
  split; [|split; [|by vm_compute]].
  - intros addrs. by rewrite addrsLoop_elem, list_elem_of_lookup.
  - assert ((isAllowedByFCrDNS clientIP dnsAllowlist w).1 = true) as Hyes by by rewrite Hv.
    apply isAllowedByFCrDNS_true in Hyes
      as (_ & ptrs & Hrev & _ & ptr & allowed & Hp & Ha & _ & addrs & Hfwd & Hin).
    apply list_elem_of_lookup in Hin as [i Hi].
    by exists port, ptrs, ptr, allowed, addrs, i.
Qed.

End claims.


(** ** The claims on the demo deployment *)

Section witnesses.

Lemma demo_authorized (path : string) :
  @authorized strings.asciiFolding demo.bearerToken demo.dnsAllowlist (demo.get path)
    demo.world "203.0.113.5" demo.lookups.
Proof.
  split; [by vm_compute|]. split; [by exists "40312"|]. by vm_compute.
Defined.

Lemma demo_wellFormed (fileName : string) :
  fileName <> "" ->
  wellFormed (demo.get ("/certs/example.org/" +:+ fileName)) "example.org" fileName.
Proof.
  intros Hne. split; [|split; [done|split; [done|]]].
  - split; [|by vm_compute]. unfold requestPath. cbn [demo.get demo.request http.URLPath].
    change ("/certs/example.org/" +:+ fileName)
      with ("/certs/" +:+ ("example.org" +:+ "/" +:+ fileName)).
    apply TrimPrefix_app.
  - intros [Ht|[Ht|Ht]]; by vm_compute in Ht.
Defined.

End witnesses.

Lemma cert_path_is_beneath_root_witness :
  beneath "/etc/letsencrypt/live" "/etc/letsencrypt/live/example.org/fullchain.pem"
  /\ properPrefix "/etc/letsencrypt/live"
       "/etc/letsencrypt/live/example.org/fullchain.pem".
Proof.
  destruct (@cert_path_is_beneath_root strings.asciiFolding
              "/etc/letsencrypt/live" "example.org" "fullchain.pem")
    as (Hb & Hp & _); [by vm_compute..|].
  split; [exact Hb|]. apply Hp; [by vm_compute|done].
Defined.

Lemma unauthenticated_is_401_witness :
  demo.handler demo.dnsAllowlist
    (demo.request "GET" "/certs/example.org/fullchain.pem" "203.0.113.5:40312" None)
    demo.world
  = (http.Error "Unauthorized" http.StatusUnauthorized, []).
Proof.
  refine (proj1 (@unauthenticated_is_401 strings.asciiFolding _ _ _ _ _ _)).
  left. by vm_compute.
Defined.

Lemma bad_request_iff_witness :
  http.StatusCode
    (demo.handler demo.dnsAllowlist (demo.get "/certs/..\evil/fullchain.pem") demo.world).1
  = 400.
Proof.
  apply (proj1 (@bad_request_iff strings.asciiFolding demo.bearerToken demo.dnsAllowlist
                  demo.certsBaseDir _ demo.world _ _ (demo_authorized _))).
  right. exists "..\evil", "fullchain.pem". split; [split; by vm_compute|].
  left. by vm_compute.
Defined.

Lemma disallowed_file_is_404_witness :
  demo.handler demo.dnsAllowlist (demo.get "/certs/example.org/secret.txt") demo.world
  = (http.Error "Not Found" http.StatusNotFound, demo.lookups).
Proof.
  refine (proj1 (@disallowed_file_is_404 strings.asciiFolding demo.bearerToken
                   demo.dnsAllowlist demo.certsBaseDir _ demo.world _ _ _ _
                   (demo_authorized _) (demo_wellFormed "secret.txt" _) _)); [done|].
  rewrite !elem_of_cons, elem_of_nil. by intros [?|[?|[?|[?|?]]]].
Defined.

(** C5, as stated, fails: a file-name segment outside the allowed set is
    answered 400 when it is empty, and also when the domain segment before it
    holds a backslash; without the credential the answer is 401. *)
Lemma disallowed_file_can_be_400 :
  (cutsInto (requestPath (demo.get "/certs/example.org/")) "example.org" ""
   /\ ("" ∉ ["fullchain.pem"; "privkey.pem"; "cert.pem"; "chain.pem"])
   /\ demo.handler demo.dnsAllowlist (demo.get "/certs/example.org/") demo.world
      = (http.Error badRequestShape http.StatusBadRequest, demo.lookups))
  /\ (cutsInto (requestPath (demo.get "/certs/a\b/secret.txt")) "a\b" "secret.txt"
      /\ ("secret.txt" ∉ ["fullchain.pem"; "privkey.pem"; "cert.pem"; "chain.pem"])
      /\ demo.handler demo.dnsAllowlist (demo.get "/certs/a\b/secret.txt") demo.world
         = (http.Error "Bad Request" http.StatusBadRequest, demo.lookups))
  /\ demo.handler demo.dnsAllowlist
       (demo.request "GET" "/certs/example.org/secret.txt" "203.0.113.5:40312" None)
       demo.world
     = (http.Error "Unauthorized" http.StatusUnauthorized, []).
Proof.
  assert (forall name : string,
            name <> "fullchain.pem" -> name <> "privkey.pem" ->
            name <> "cert.pem" -> name <> "chain.pem" ->
            name ∉ ["fullchain.pem"; "privkey.pem"; "cert.pem"; "chain.pem"]) as Hnot.
  { intros name ? ? ? ?. rewrite !elem_of_cons, elem_of_nil. tauto. }
  repeat split; try (by vm_compute); by apply Hnot.
Qed.

Lemma read_failure_is_404_or_500_witness :
  demo.handler demo.dnsAllowlist (demo.get "/certs/example.org/privkey.pem") demo.world
  = (http.Error "Internal Server Error" http.StatusInternalServerError,
     (demo.lookups ++
      [EvReadFile "/etc/letsencrypt/live/example.org/privkey.pem";
       EvLog (LogReadFailed "/etc/letsencrypt/live/example.org/privkey.pem"
                            demo.permissionDenied)])%list).
Proof.
  refine (proj1 (proj2 (@read_failure_is_404_or_500 strings.asciiFolding
                   demo.bearerToken demo.dnsAllowlist demo.certsBaseDir _ demo.world
                   _ _ _ _ demo.permissionDenied
                   (demo_authorized _) (demo_wellFormed "privkey.pem" _) _ _) _));
    by vm_compute.
Defined.


Lemma served_file_is_deterministic_witness :
  serveAll (H := strings.asciiFolding) demo.bearerToken demo.dnsAllowlist
    demo.certsBaseDir demo.world
    (replicate 3 (demo.get "/certs/example.org/fullchain.pem"))
  = replicate 3 (pemResponse demo.pem).
Proof.
  refine (proj1 (proj2 (proj2 (proj2 (@served_file_is_deterministic strings.asciiFolding
            demo.bearerToken demo.dnsAllowlist demo.certsBaseDir _ demo.world
            _ _ _ _ demo.pem
            (demo_authorized _) (demo_wellFormed "fullchain.pem" _) _ _)))) 3%nat);
    by vm_compute.
Defined.

Lemma method_is_ignored_witness :
  demo.handler demo.dnsAllowlist
    (demo.request "DELETE" "/certs/example.org/fullchain.pem" "203.0.113.5:40312"
                  (Some "Bearer s3cret"))
    demo.world
  = demo.handler demo.dnsAllowlist (demo.get "/certs/example.org/fullchain.pem")
      demo.world.
Proof.
  by apply (@method_is_ignored strings.asciiFolding).
Defined.

Lemma forward_confirmation_is_string_equality_witness :
  exists (port : string) (ptrs : list string) (ptr allowed : string)
         (addrs : list string) (i : nat),
    net.SplitHostPort "203.0.113.5:40312" = inl ("203.0.113.5", port) /\
    LookupAddr demo.world "203.0.113.5" = inl ptrs /\ ptr ∈ ptrs /\
    allowed ∈ demo.dnsAllowlist /\
    LookupHost demo.world (strings.TrimSuffix ptr ".") = inl addrs /\
    addrs !! i = Some "203.0.113.5".
Proof.
  exact (proj1 (proj2 (@forward_confirmation_is_string_equality strings.asciiFolding
           demo.bearerToken demo.dnsAllowlist _ demo.world _ _
           (demo_authorized "/certs/example.org/fullchain.pem")))).
Defined.


(** ** Facts about [TrimSpace] and [Split] *)

Section trim_facts.
Context `{!strings'.UnicodeSpace}.

#[local] Arguments strings.Index : simpl never.
#[local] Arguments strings.Contains : simpl never.

Lemma asciiSpace_isASCII c : strings'.asciiSpace c = true -> strings'.isASCIIByte c = true.
Proof.
  unfold strings'.asciiSpace, strings'.isASCIIByte. intros Hsp.
  apply N.ltb_lt.
  destruct (N_of_ascii c) as [|p]; [lia|].
  repeat (destruct p as [p|p|]; try discriminate; try lia).
Qed.

Lemma visible_spec c :
  visible c = true <->
  strings'.isASCIIByte c = true /\ strings'.asciiSpace c = false.
Proof. unfold visible. rewrite andb_true_iff, negb_true_iff. done. Qed.

Lemma allSpace_app s t : allSpace (s +:+ t) = allSpace s && allSpace t.
Proof. induction s as [|c s IH]; simpl; [done|]. by rewrite IH, andb_assoc. Qed.

Lemma isASCII_app s t : isASCII (s +:+ t) = isASCII s && isASCII t.
Proof. induction s as [|c s IH]; simpl; [done|]. by rewrite IH, andb_assoc. Qed.

Lemma allSpace_isASCII s : allSpace s = true -> isASCII s = true.
Proof.
  induction s as [|c s IH]; simpl; [done|].
  intros [Hc Hs]%andb_true_iff. by rewrite (asciiSpace_isASCII c Hc), IH.
Qed.

Lemma noByte_app c s t : noByte c (s +:+ t) = noByte c s && noByte c t.
Proof. induction s as [|a s IH]; simpl; [done|]. by rewrite IH, andb_assoc. Qed.

(** [noByte] is [Contains] of a one-byte string, negated. *)
Lemma noByte_Contains c s :
  noByte c s = negb (strings.Contains s (String c "")).
Proof.
  induction s as [|a s IH]; [done|]. cbn [noByte].
  destruct (decide (a = c)) as [->|Hne].
  - rewrite bool_decide_eq_true_2 by done.
    assert (strings.Contains (String c s) (String c "") = true) as ->; [|done].
    apply Contains_spec. by exists "", s.
  - rewrite bool_decide_eq_false_2 by done. rewrite IH. cbn [negb andb].
    destruct (strings.Contains (String a s) (String c "")) eqn:E.
    + apply Contains_spec in E as (front & back & E).
      destruct front as [|b front]; simpl in E; [congruence|].
      injection E as _ ->.
      by rewrite (proj2 (Contains_spec _ _)) by by exists front, back.
    + by apply Contains_false_String in E as [_ ->].
Qed.

Lemma endsVisible_cons c s : s <> "" -> endsVisible (String c s) = endsVisible s.
Proof. by destruct s. Qed.

(** The second loop leaves nothing of a run of spaces. *)
Lemma scanStop_allSpace s : allSpace s = true -> strings'.scanStop s = ("", false).
Proof.
  induction s as [|c s IH]; [done|]. simpl.
  intros [Hc Hs]%andb_true_iff. rewrite IH by done. simpl.
  by rewrite (asciiSpace_isASCII c Hc), Hc.
Qed.

(** The second loop stops at a visible byte. *)
Lemma scanStop_visible x post :
  endsVisible x = true -> allSpace post = true ->
  strings'.scanStop (x +:+ post) = (x, false).
Proof.
  intros Hx Hpost. induction x as [|c x IH]; [done|].
  destruct x as [|c' x'].
  - cbn [endsVisible] in Hx. apply visible_spec in Hx as [Hascii Hsp].
    simpl. rewrite scanStop_allSpace by done. simpl. by rewrite Hascii, Hsp.
  - rewrite endsVisible_cons in Hx by done. specialize (IH Hx).
    change (String c (String c' x') +:+ post) with (String c (String c' x' +:+ post)).
    cbn [strings'.scanStop]. rewrite IH. by rewrite bool_decide_eq_false_2.
Qed.

(** What [TrimSpace] does to ASCII padding. *)
Lemma TrimSpace_pad pre x post :
  allSpace pre = true -> trimmed x = true -> allSpace post = true ->
  strings'.TrimSpace (pre +:+ x +:+ post) = x.
Proof.
  intros Hpre [Hstart Hend]%andb_true_iff Hpost.
  induction pre as [|a pre IH].
  - destruct x as [|c x]; [done|]. cbn [startsVisible] in Hstart.
    apply visible_spec in Hstart as [Hascii Hsp]. simpl.
    rewrite Hascii, Hsp. cbn [negb]. unfold strings'.trimStop.
    change (String c (x +:+ post)) with (String c x +:+ post).
    by rewrite scanStop_visible.
  - simpl in Hpre. apply andb_true_iff in Hpre as [Ha Hpre]. simpl.
    rewrite (asciiSpace_isASCII a Ha), Ha. cbn [negb]. by apply IH.
Qed.

Lemma TrimSpace_trimmed x : trimmed x = true -> strings'.TrimSpace x = x.
Proof.
  intros Hx. pose proof (TrimSpace_pad "" x "" eq_refl Hx eq_refl) as Hpad.
  simpl in Hpad. by rewrite app_empty_r in Hpad.
Qed.

Lemma TrimSpace_allSpace s : allSpace s = true -> strings'.TrimSpace s = "".
Proof.
  induction s as [|c s IH]; [done|]. simpl.
  intros [Hc Hs]%andb_true_iff. rewrite (asciiSpace_isASCII c Hc), Hc. by apply IH.
Qed.

(** On ASCII text the second loop cuts a run of spaces off the end. *)
Lemma scanStop_ascii s :
  isASCII s = true ->
  exists post,
    allSpace post = true /\ s = (strings'.scanStop s).1 +:+ post /\
    (strings'.scanStop s).2 = false /\
    ((strings'.scanStop s).1 = "" \/ endsVisible (strings'.scanStop s).1 = true).
Proof.
  induction s as [|c s IH]; [by exists ""; auto|].
  simpl. intros [Hc Hs]%andb_true_iff.
  destruct (IH Hs) as (post & Hpost & Heq & Huni & Hend).
  destruct (strings'.scanStop s) as [kept unicode]. simpl in *. subst unicode.
  case_bool_decide as Hkept.
  - subst kept. simpl in Heq. subst post. rewrite Hc. cbn [negb].
    destruct (strings'.asciiSpace c) eqn:Hsp.
    + exists (String c s). simpl. rewrite Hsp, Hpost. auto.
    + exists s. simpl. repeat split; try done. right. apply visible_spec. done.
  - exists post. cbn [fst snd]. repeat split; try done.
    + simpl. by f_equal.
    + right. destruct Hend as [?|Hend]; [done|]. by rewrite endsVisible_cons.
Qed.

(** On ASCII text [TrimSpace] removes a run of spaces at each end and leaves
    nothing, or a string with a visible byte at each end. *)
Lemma TrimSpace_ascii s :
  isASCII s = true ->
  exists pre post,
    allSpace pre = true /\ allSpace post = true /\
    s = pre +:+ strings'.TrimSpace s +:+ post /\
    (strings'.TrimSpace s = "" \/ trimmed (strings'.TrimSpace s) = true).
Proof.
  induction s as [|c s IH]; [by exists "", ""; auto|].
  simpl. intros [Hc Hs]%andb_true_iff. rewrite Hc. cbn [negb].
  destruct (strings'.asciiSpace c) eqn:Hsp.
  - destruct (IH Hs) as (pre & post & Hpre & Hpost & Heq & Hres).
    exists (String c pre), post. simpl. rewrite Hsp, Hpre.
    repeat split; try done. by rewrite Heq at 1.
  - destruct (scanStop_ascii (String c s)) as (post & Hpost & Heq & Huni & Hend).
    { simpl. by rewrite Hc, Hs. }
    unfold strings'.trimStop.
    destruct (strings'.scanStop (String c s)) as [kept unicode] eqn:Hscan.
    simpl in Heq, Huni, Hend. subst unicode.
    exists "", post. simpl. repeat split; try done.
    destruct Hend as [->|Hend]; [by left|right].
    unfold trimmed. rewrite Hend, andb_true_r.
    destruct kept as [|k kept]; [done|]. simpl in Heq. injection Heq as <- _.
    apply visible_spec. done.
Qed.

Lemma TrimSpace_ascii_noByte c s :
  isASCII s = true -> noByte c s = true -> noByte c (strings'.TrimSpace s) = true.
Proof.
  intros Hs Hno. destruct (TrimSpace_ascii s Hs) as (pre & post & _ & _ & Heq & _).
  rewrite Heq, !noByte_app in Hno.
  by apply andb_true_iff in Hno as [_ [? _]%andb_true_iff].
Qed.

(** *** [Split] *)

Lemma Index_absent s sub :
  strings.Contains s sub = false -> (strings.Index s sub <? 0) = true.
Proof. unfold strings.Contains. rewrite Z.leb_gt, Z.ltb_lt. done. Qed.

Lemma length_app_str s t :
  String.length (s +:+ t) = (String.length s + String.length t)%nat.
Proof. induction s; simpl; [done|]. by f_equal. Qed.

(** With enough cuts allowed, the pieces of a joined list are the list. *)
Lemma genSplitLoop_Join c p ps n :
  Forall (fun e => noByte c e = true) (p :: ps) -> (length ps <= n)%nat ->
  strings.genSplitLoop n (strings.Join (p :: ps) (String c "")) (String c "") = p :: ps.
Proof.
  revert p n. induction ps as [|q ps IH]; intros p n Hno Hn.
  - apply Forall_cons in Hno as [Hp _]. rewrite noByte_Contains, negb_true_iff in Hp.
    destruct n; [done|]. cbn [strings.genSplitLoop strings.Join].
    by rewrite Index_absent.
  - apply Forall_cons in Hno as [Hp Hrest].
    rewrite noByte_Contains, negb_true_iff in Hp.
    destruct n as [|n]; [simpl in Hn; lia|].
    rewrite Join_cons2. cbn [strings.genSplitLoop].
    change (String c "" +:+ strings.Join (q :: ps) (String c ""))
      with (String c (strings.Join (q :: ps) (String c ""))).
    rewrite Index_byte_app by done.
    pose proof (len_nonneg p). destruct (Z.ltb_spec (len p) 0); [lia|].
    rewrite sliceTo_app. f_equal.
    change (len (String c "")) with 1.
    change (String c (strings.Join (q :: ps) (String c "")))
      with (String c "" +:+ strings.Join (q :: ps) (String c "")).
    replace (len p + 1) with (len (p +:+ String c "")) by by rewrite len_app.
    rewrite <- app_assoc', sliceFrom_app. apply IH; [done|]. simpl in Hn. lia.
Qed.

Lemma length_Join_ge p ps sep :
  sep <> "" -> (length ps <= String.length (strings.Join (p :: ps) sep))%nat.
Proof.
  intros Hsep. revert p. induction ps as [|q ps IH]; intros p; [simpl; lia|].
  rewrite Join_cons2, !length_app_str. specialize (IH q).
  destruct sep; [done|]. simpl in *. lia.
Qed.

(** Splitting a joined list of separator-free pieces gives the pieces. *)
Lemma Split_Join c p ps :
  Forall (fun e => noByte c e = true) (p :: ps) ->
  strings'.Split (strings.Join (p :: ps) (String c "")) (String c "") = p :: ps.
Proof.
  intros Hno. unfold strings'.Split, strings.SplitN. cbn [Z.eqb Z.ltb Z.compare orb].
  apply genSplitLoop_Join; [done|].
  replace (Z.to_nat (len (strings.Join (p :: ps) (String c "")) + 1 - 1))
    with (String.length (strings.Join (p :: ps) (String c ""))) by (unfold len; lia).
  by apply length_Join_ge.
Qed.

(** With enough cuts allowed, no piece holds the separator, and the pieces
    of ASCII text are ASCII. *)
Lemma genSplitLoop_pieces c s n :
  (String.length s <= n)%nat ->
  Forall (fun e => noByte c e = true) (strings.genSplitLoop n s (String c ""))
  /\ (isASCII s = true ->
      Forall (fun e => isASCII e = true) (strings.genSplitLoop n s (String c ""))).
Proof.
  revert s. induction n as [|n IH]; intros s Hlen.
  - destruct s; [|simpl in Hlen; lia]. split; [|intros _]; by apply Forall_singleton.
  - cbn [strings.genSplitLoop].
    destruct (Z.ltb_spec (strings.Index s (String c "")) 0) as [Hneg|Hge].
    + split; [|intros ?]; apply Forall_singleton; [|done].
      rewrite noByte_Contains, negb_true_iff. unfold strings.Contains.
      by apply Z.leb_gt.
    + pose proof (Index_found s _ Hge) as Hcut.
      pose proof (Index_first s (String c "") ltac:(done) Hge) as Hfirst.
      set (front := sliceTo s (strings.Index s (String c ""))) in *.
      set (back := sliceFrom s (strings.Index s (String c "") + len (String c ""))) in *.
      assert (String.length back <= n)%nat as Hback.
      { rewrite Hcut, !length_app_str in Hlen. simpl in Hlen. lia. }
      destruct (IH back Hback) as [IHno IHascii].
      split.
      * apply Forall_cons. split; [|done]. by rewrite noByte_Contains, Hfirst.
      * intros Hs. rewrite Hcut, !isASCII_app in Hs.
        apply andb_true_iff in Hs as [Hf [_ Hb]%andb_true_iff].
        apply Forall_cons. split; [done|]. by apply IHascii.
Qed.

Lemma Split_pieces c s :
  Forall (fun e => noByte c e = true) (strings'.Split s (String c ""))
  /\ (isASCII s = true ->
      Forall (fun e => isASCII e = true) (strings'.Split s (String c ""))).
Proof.
  unfold strings'.Split, strings.SplitN. cbn [Z.eqb Z.ltb Z.compare orb].
  apply genSplitLoop_pieces. unfold len. lia.
Qed.

End trim_facts.


(** ** More properties of [certs.go] *)

Section certs_extra.
Context `{!strings.Folding}.

#[local] Arguments allowlistLoop : simpl never.
#[local] Arguments ptrsLoop : simpl never.
#[local] Arguments filepath.Join : simpl never.
#[local] Arguments strings.Contains : simpl never.

Lemma LastIndexByteString_absent c s :
  noByte c s = true -> net.LastIndexByteString s c = -1.
Proof.
  induction s as [|a s IH]; [done|]. simpl.
  intros [Ha Hs]%andb_true_iff. rewrite IH by done. simpl.
  apply negb_true_iff in Ha. by rewrite Ha.
Qed.

Lemma SplitHostPort_no_colon hostport :
  noByte ":" hostport = true ->
  net.SplitHostPort hostport = inr {| net.Err := net.missingPort; net.Addr := hostport |}.
Proof. intros Hno. unfold net.SplitHostPort. by rewrite LastIndexByteString_absent. Qed.

(** X1.  An authenticated request whose peer address holds no colon (no
    port, as for a Unix-domain socket) is answered 403: the refusal to parse
    is logged, and nothing is looked up or read. *)
Theorem peer_without_port_is_403 (bearerToken : string) (dnsAllowlist : list string)
    (certsBaseDir : string) (r : http.Request) (w : World) :
  authenticated bearerToken r ->
  noByte ":" (http.RemoteAddr r) = true ->
  CertsHandler bearerToken dnsAllowlist certsBaseDir r w
  = (http.Error "Forbidden" http.StatusForbidden,
     [EvLog (LogCannotParse (http.RemoteAddr r)
               {| net.Err := "missing port in address";
                  net.Addr := http.RemoteAddr r |})]).
Proof.
  intros Hauth Hno. unfold CertsHandler.
  rewrite bool_decide_eq_false_2 by (intros Hne; by destruct Hne).
  by rewrite SplitHostPort_no_colon.
Qed.

(** X2.  Every response of the handler is one of six fixed error responses,
    or it is status 200 with the bytes of a file that was read at the join of
    the certificate root, the domain segment and one of the four allowed
    names, a path beneath the root.  Nothing else is ever sent. *)
Theorem response_is_error_or_allowed_file (bearerToken : string)
    (dnsAllowlist : list string) (certsBaseDir : string) (r : http.Request)
    (w : World) :
  (CertsHandler bearerToken dnsAllowlist certsBaseDir r w).1 ∈ errorResponses
  \/ exists domain fileName data,
       fileName ∈ ["fullchain.pem"; "privkey.pem"; "cert.pem"; "chain.pem"] /\
       ReadFile w (filepath.Join [certsBaseDir; domain; fileName]) = inl data /\
       beneath certsBaseDir (filepath.Join [certsBaseDir; domain; fileName]) /\
       (CertsHandler bearerToken dnsAllowlist certsBaseDir r w).1 = pemResponse data.
Proof.
  destruct (CertsHandler_cases bearerToken dnsAllowlist certsBaseDir r w)
    as (resp & tr & -> & Hout).
  cbn [fst]. unfold errorResponses.
  destruct Hout as [Hno|err Ha Hp|ip' port t' Ha Hp Hv|ip' t' Hok' Hshape
                   |ip' t' d f Hok' Hcut Hd Hf Htrav
                   |ip' t' d f Hok' Hwf' Hfile
                   |ip' t' d f err Hok' Hwf' Hfile Hread Hne
                   |ip' t' d f err Hok' Hwf' Hfile Hread Hne
                   |ip' t' d f data Hok' Hwf' Hfile Hread];
    try (left; rewrite !elem_of_cons; unfold badRequestShape; tauto).
  right. exists d, f, data.
  destruct (wellFormed_clean _ _ _ Hwf') as [Hdd Hsl].
  split; [|split; [done|split; [by apply Join_beneath|done]]].
  apply allowedCertFile_true in Hfile. rewrite !elem_of_cons. tauto.
Qed.





Lemma authorized_dns bearerToken dnsAllowlist r w clientIP t :
  authorized bearerToken dnsAllowlist r w clientIP t ->
  Forall (fun e => isDNSLookup e = true) t.
Proof.
  intros (_ & _ & Hv).
  pose proof (isAllowedByFCrDNS_trace w clientIP dnsAllowlist) as Htr.
  by rewrite Hv in Htr.
Qed.

(** X4.  A run of the handler is a sequence of DNS lookups followed by at
    most one file read and at most one log line, in this order; a file is
    read only after the verifier has accepted the peer. *)
Theorem handler_run_shape (bearerToken : string) (dnsAllowlist : list string)
    (certsBaseDir : string) (r : http.Request) (w : World) :
  exists dns tail,
    (CertsHandler bearerToken dnsAllowlist certsBaseDir r w).2 = (dns ++ tail)%list /\
    Forall (fun e => isDNSLookup e = true) dns /\
    (tail = [] \/ (exists line, tail = [EvLog line])
     \/ exists name,
          (tail = [EvReadFile name] \/ exists line, tail = [EvReadFile name; EvLog line])
          /\ exists clientIP port,
               net.SplitHostPort (http.RemoteAddr r) = inl (clientIP, port) /\
               isAllowedByFCrDNS clientIP dnsAllowlist w = (true, dns)).
Proof.
  destruct (CertsHandler_cases bearerToken dnsAllowlist certsBaseDir r w)
    as (resp & tr & -> & Hout).
  cbn [snd].
  destruct Hout as [Hno|err Ha Hp|ip' port t' Ha Hp Hv|ip' t' Hok' Hshape
                   |ip' t' d f Hok' Hcut Hd Hf Htrav
                   |ip' t' d f Hok' Hwf' Hfile
                   |ip' t' d f err Hok' Hwf' Hfile Hread Hne
                   |ip' t' d f err Hok' Hwf' Hfile Hread Hne
                   |ip' t' d f data Hok' Hwf' Hfile Hread].
  - exists [], []. repeat split; [by constructor|by left].
  - exists [], [EvLog (LogCannotParse (http.RemoteAddr r) err)].
    repeat split; [by constructor|]. right; left. by eexists.
  - exists t', [EvLog (LogDenied ip')]. repeat split.
    + pose proof (isAllowedByFCrDNS_trace w ip' dnsAllowlist) as Htr. by rewrite Hv in Htr.
    + right; left. by eexists.
  - exists t', []. rewrite app_nil_r.
    repeat split; [by eapply authorized_dns|by left].
  - exists t', []. rewrite app_nil_r.
    repeat split; [by eapply authorized_dns|by left].
  - exists t', []. rewrite app_nil_r.
    repeat split; [by eapply authorized_dns|by left].
  - eexists t', _. repeat split; [by eapply authorized_dns|].
    right; right. eexists. split; [by left|].
    destruct Hok' as (_ & [port Hp] & Hv). by exists ip', port.
  - eexists t', _. repeat split; [by eapply authorized_dns|].
    right; right. eexists. split; [right; by eexists|].
    destruct Hok' as (_ & [port Hp] & Hv). by exists ip', port.
  - eexists t', _. repeat split; [by eapply authorized_dns|].
    right; right. eexists. split; [right; by eexists|].
    destruct Hok' as (_ & [port Hp] & Hv). by exists ip', port.
Qed.

(** X5.  The verdict of the verifier depends on the allowlist as a set:
    entries added to the allowlist never turn an acceptance into a
    rejection, and two allowlists with the same entries, in any order and
    with any repetitions, give the same verdict. *)
Theorem fcrdns_allowlist_is_a_set (w : World) (clientIP : string)
    (allowlist allowlist' : list string) :
  allowlist ⊆ allowlist' ->
  ((isAllowedByFCrDNS clientIP allowlist w).1 = true ->
   (isAllowedByFCrDNS clientIP allowlist' w).1 = true)
  /\ (allowlist' ⊆ allowlist ->
      (isAllowedByFCrDNS clientIP allowlist' w).1
      = (isAllowedByFCrDNS clientIP allowlist w).1).
Proof.
  intros Hsub.
  assert (forall al al' : list string, al ⊆ al' ->
            (isAllowedByFCrDNS clientIP al w).1 = true ->
            (isAllowedByFCrDNS clientIP al' w).1 = true) as Hmono.
  { intros al al' Hincl. rewrite !isAllowedByFCrDNS_true.
    intros (Hne & ptrs & Hrev & Hptrs & ptr & allowed & Hp & Ha & Hconf).
    split.
    - intros ->. specialize (Hincl _ Ha). by apply elem_of_nil in Hincl.
    - exists ptrs. split; [done|]. split; [done|]. exists ptr, allowed.
      split; [done|]. split; [by apply Hincl|done]. }
  split; [by apply Hmono|]. intros Hsup.
  destruct (isAllowedByFCrDNS clientIP allowlist w).1 eqn:E.
  - by apply (Hmono allowlist allowlist').
  - destruct (isAllowedByFCrDNS clientIP allowlist' w).1 eqn:E'; [|done].
    apply (Hmono allowlist' allowlist) in E'; [congruence|done].
Qed.

Lemma dns_is_not_log t :
  Forall (fun e => isDNSLookup e = true) t -> List.filter isLog t = [].
Proof.
  induction 1 as [|e t He _ IH]; [done|]. simpl. rewrite IH. by destruct e.
Qed.

(** X6.  The handler writes a log line exactly when it answers 403, 500 or
    200, and then a single one: the rejections 401, 400 and 404 leave no
    trace in the log. *)
Theorem handler_logs_403_500_200 (bearerToken : string) (dnsAllowlist : list string)
    (certsBaseDir : string) (r : http.Request) (w : World) :
  let run := CertsHandler bearerToken dnsAllowlist certsBaseDir r w in
  (length (List.filter isLog run.2)
   = if bool_decide (http.StatusCode run.1 ∈ [403; 500; 200]) then 1%nat else 0%nat)
  /\ http.StatusCode run.1 ∈ [200; 400; 401; 403; 404; 500].
Proof.
  cbv zeta.
  destruct (CertsHandler_cases bearerToken dnsAllowlist certsBaseDir r w)
    as (resp & tr & -> & Hout).
  cbn [fst snd].
  destruct Hout as [Hno|err Ha Hp|ip' port t' Ha Hp Hv|ip' t' Hok' Hshape
                   |ip' t' d f Hok' Hcut Hd Hf Htrav
                   |ip' t' d f Hok' Hwf' Hfile
                   |ip' t' d f err Hok' Hwf' Hfile Hread Hne
                   |ip' t' d f err Hok' Hwf' Hfile Hread Hne
                   |ip' t' d f data Hok' Hwf' Hfile Hread];
    try (pose proof (dns_is_not_log _ (authorized_dns _ _ _ _ _ _ Hok')) as Hnolog);
    try (pose proof (isAllowedByFCrDNS_trace w ip' dnsAllowlist) as Htr;
         rewrite Hv in Htr; cbn [snd] in Htr; apply dns_is_not_log in Htr as Hnolog);
    rewrite ?List.filter_app, ?Hnolog;
    cbn [List.filter isLog length app http.StatusCode http.Error pemResponse];
    unfold http.StatusUnauthorized, http.StatusForbidden, http.StatusBadRequest,
      http.StatusNotFound, http.StatusOK, http.StatusInternalServerError;
    (split;
     [case_bool_decide as E; rewrite !elem_of_cons, elem_of_nil in E;
      first [done | exfalso; lia | exfalso; apply E; auto]
     |rewrite !elem_of_cons; auto 10]).
Qed.

(** X7.  The domain segment "." passes the validation of the handler: for an
    authorized request to /certs/./{file} with an allowed file name, the
    handler reads the file of that name in the certificate root itself, not
    in a directory of a domain. *)
Theorem dot_domain_reads_the_root (bearerToken : string) (dnsAllowlist : list string)
    (certsBaseDir : string) (r : http.Request) (w : World)
    (clientIP : string) (t : list Event) (fileName : string) :
  authorized bearerToken dnsAllowlist r w clientIP t ->
  http.URLPath r = "/certs/./" +:+ fileName ->
  allowedCertFile fileName = true ->
  let name := filepath.Join [certsBaseDir; "."; fileName] in
  (name = filepath.Clean certsBaseDir +:+ "/" +:+ fileName
   \/ (filepath.Clean certsBaseDir = "/" /\ name = "/" +:+ fileName)
   \/ (filepath.Clean certsBaseDir = "." /\ name = fileName))
  /\ EvReadFile name ∈ (CertsHandler bearerToken dnsAllowlist certsBaseDir r w).2.
Proof.
  intros Hok Hpath Hfile name. subst name.
  pose proof (allowedCertFile_plain _ Hfile) as Hplain.
  split.
  - destruct (Join3_buffer certsBaseDir "." fileName) as (rooted & out & Hroot & Hjoin);
      [by vm_compute|apply Hplain|apply Hplain|].
    rewrite Hjoin, Hroot. cbn [foldl].
    rewrite (cleanElement_skip _ _ ".") by by right.
    rewrite cleanElement_plain by done.
    by apply (bufString_push rooted out [fileName]).
  - assert (wellFormed r "." fileName) as Hwf.
    { split; [|split; [done|split; [apply Hplain|]]].
      - split; [|by vm_compute]. unfold requestPath. rewrite Hpath.
        change ("/certs/./" +:+ fileName) with ("/certs/" +:+ ("." +:+ "/" +:+ fileName)).
        apply TrimPrefix_app.
      - intros [Ht|[Ht|Ht]]; by vm_compute in Ht. }
    rewrite (CertsHandler_wellFormed _ _ _ _ _ _ _ _ _ Hok Hwf), Hfile.
    destruct (ReadFile w _) as [data|err]; [|destruct (IsNotExist err)];
      cbn [snd]; rewrite elem_of_app, elem_of_cons; auto.
Qed.

End certs_extra.


(** ** Properties of the server program *)

Section main_facts.
Context `{!strings'.UnicodeSpace}.

Lemma allBytes_app p s t : allBytes p (s +:+ t) = allBytes p s && allBytes p t.
Proof. induction s as [|c s IH]; simpl; [done|]. by rewrite IH, andb_assoc. Qed.

(** The pieces of a split are made of the bytes of the string. *)
Lemma genSplitLoop_bytes p c s n :
  allBytes p s = true ->
  Forall (fun e => allBytes p e = true) (strings.genSplitLoop n s (String c "")).
Proof.
  revert s. induction n as [|n IH]; intros s Hs; [by apply Forall_singleton|].
  cbn [strings.genSplitLoop].
  destruct (Z.ltb_spec (strings.Index s (String c "")) 0) as [Hneg|Hge];
    [by apply Forall_singleton|].
  pose proof (Index_found s _ Hge) as Hcut. rewrite Hcut, !allBytes_app in Hs.
  apply andb_true_iff in Hs as [Hf [_ Hb]%andb_true_iff].
  apply Forall_cons. split; [done|]. by apply IH.
Qed.

Lemma Split_bytes p c s :
  allBytes p s = true ->
  Forall (fun e => allBytes p e = true) (strings'.Split s (String c "")).
Proof. intros Hs. unfold strings'.Split, strings.SplitN. by apply genSplitLoop_bytes. Qed.

Lemma commas_and_spaces_without_comma s :
  onlyCommasAndSpaces s = true -> noByte "," s = true -> allSpace s = true.
Proof.
  unfold onlyCommasAndSpaces. induction s as [|c s IH]; [done|]. simpl.
  intros [Hc Hs]%andb_true_iff [Hno Hrest]%andb_true_iff.
  apply negb_true_iff in Hno. rewrite Hno in Hc. simpl in Hc.
  by rewrite Hc, IH.
Qed.

Lemma allSpace_noByte c s : visible c = true -> allSpace s = true -> noByte c s = true.
Proof.
  intros [_ Hc]%visible_spec. induction s as [|a s IH]; [done|]. simpl.
  intros [Ha Hs]%andb_true_iff. rewrite IH by done.
  rewrite bool_decide_eq_false_2; [done|]. intros ->. congruence.
Qed.

Lemma trimmed_nonempty x : trimmed x = true -> x <> "".
Proof. by destruct x. Qed.

(** The loop appends to the list it has. *)
Lemma foldl_allowlistStep acc pieces :
  foldl dnsproxy.allowlistStep acc pieces
  = (acc ++ foldl dnsproxy.allowlistStep [] pieces)%list.
Proof.
  revert acc. induction pieces as [|p ps IH]; intros acc; [by rewrite app_nil_r|].
  cbn [foldl]. rewrite (IH (dnsproxy.allowlistStep acc p)),
    (IH (dnsproxy.allowlistStep [] p)).
  unfold dnsproxy.allowlistStep. case_bool_decide; [|done].
  by rewrite <- (assoc_L (++)%list).
Qed.

Lemma foldl_allowlistStep_Forall (P : string -> Prop) pieces :
  (forall p, p ∈ pieces -> strings'.TrimSpace p <> "" -> P (strings'.TrimSpace p)) ->
  Forall P (foldl dnsproxy.allowlistStep [] pieces).
Proof.
  induction pieces as [|p ps IH]; intros HP; [by constructor|].
  cbn [foldl]. rewrite foldl_allowlistStep. apply Forall_app. split.
  - unfold dnsproxy.allowlistStep. case_bool_decide; [|by constructor].
    apply Forall_singleton. apply HP; [apply list_elem_of_here|done].
  - apply IH. intros q Hq. apply HP. by apply list_elem_of_further.
Qed.

(** X8.  No entry of the allowlist that [main] builds is empty, and for an
    ASCII value of CERT_DNS_ALLOWLIST every entry starts and ends with a
    visible byte and holds no comma. *)
Theorem allowlist_entries_are_trimmed (certDNSAllowlistRaw : string) :
  Forall (fun h => h <> "") (dnsproxy.splitAllowlist certDNSAllowlistRaw)
  /\ (isASCII certDNSAllowlistRaw = true ->
      Forall (fun h => trimmed h = true /\ noByte "," h = true)
             (dnsproxy.splitAllowlist certDNSAllowlistRaw)).
Proof.
  unfold dnsproxy.splitAllowlist. split.
  - by apply foldl_allowlistStep_Forall.
  - intros Hraw. apply foldl_allowlistStep_Forall. intros p Hp Hne.
    destruct (Split_pieces ","%char certDNSAllowlistRaw) as [Hno Hascii].
    specialize (Hascii Hraw). rewrite Forall_forall in Hno, Hascii.
    specialize (Hno _ Hp). specialize (Hascii _ Hp). cbv beta in Hno, Hascii.
    split.
    + by destruct (TrimSpace_ascii p Hascii) as (_ & _ & _ & _ & _ & [?|?]).
    + by apply TrimSpace_ascii_noByte.
Qed.

Lemma splitAllowlist_pieces pieces hosts :
  Forall2 padded pieces hosts ->
  Forall (fun h => trimmed h = true) hosts ->
  foldl dnsproxy.allowlistStep [] pieces = hosts.
Proof.
  induction 1 as [|p h ps hs (pre & post & Hpre & Hpost & ->) _ IH];
    intros Hall; [done|].
  apply Forall_cons in Hall as [Hh Hhs].
  cbn [foldl]. rewrite foldl_allowlistStep, IH by done.
  unfold dnsproxy.allowlistStep. rewrite TrimSpace_pad by done.
  by rewrite bool_decide_eq_true_2 by by apply trimmed_nonempty.
Qed.

(** X9.  Round trip of the allowlist: a value of CERT_DNS_ALLOWLIST written
    as host names joined with commas, each with any ASCII spaces around it,
    is read back as the list of the host names, when every name starts and
    ends with a visible byte and holds no comma. *)
Theorem allowlist_round_trip (pieces hosts : list string) :
  Forall2 padded pieces hosts ->
  Forall (fun h => trimmed h = true /\ noByte "," h = true) hosts ->
  dnsproxy.splitAllowlist (strings.Join pieces ",") = hosts.
Proof.
  intros Hpad Hhosts. unfold dnsproxy.splitAllowlist.
  assert (Forall (fun h => trimmed h = true) hosts) as Htrim.
  { eapply Forall_impl; [exact Hhosts|]. by intros ? [? _]. }
  destruct pieces as [|p ps].
  { apply Forall2_nil_inv_l in Hpad as ->. done. }
  rewrite Split_Join; [by apply splitAllowlist_pieces|].
  clear Htrim. induction Hpad as [|q h qs hs (pre & post & Hpre & Hpost & ->) _ IH];
    [by constructor|].
  apply Forall_cons in Hhosts as [[_ Hno] Hhs].
  apply Forall_cons. split; [|by apply IH].
  by rewrite !noByte_app, Hno, !(allSpace_noByte ","%char) by done.
Qed.

End main_facts.

Section main_handlers.
Context `{!strings'.UnicodeSpace} `{!strings.Folding} `{!dnsproxy.JSONDecoder}.

#[local] Arguments filepath.Join : simpl never.

(** With an empty allowlist the handler stops at the gates. *)
Lemma CertsHandler_empty_allowlist bearerToken certsBaseDir r w :
  let run := CertsHandler bearerToken [] certsBaseDir r w in
  http.StatusCode run.1 ∈ [401; 403]
  /\ Forall (fun e => isDNSLookup e = false /\ isFileRead e = false) run.2.
Proof.
  cbv zeta. unfold CertsHandler. case_bool_decide.
  { split; [apply list_elem_of_here|by constructor]. }
  destruct (net.SplitHostPort (http.RemoteAddr r)) as [[clientIP port]|err].
  - split; [apply list_elem_of_further, list_elem_of_here|]. by repeat constructor.
  - split; [apply list_elem_of_further, list_elem_of_here|]. by repeat constructor.
Qed.

Lemma main_inv cfg srv :
  dnsproxy.main cfg = inr srv ->
  cfg !!! "API_KEY" <> "" /\ cfg !!! "CERT_BEARER_TOKEN" <> "" /\
  cfg !!! "CERT_DNS_ALLOWLIST" <> "" /\
  srv = {| dnsproxy.apiKey := cfg !!! "API_KEY";
           dnsproxy.certBearerToken := cfg !!! "CERT_BEARER_TOKEN";
           dnsproxy.certDNSAllowlist :=
             dnsproxy.splitAllowlist (cfg !!! "CERT_DNS_ALLOWLIST");
           dnsproxy.certsBaseDir :=
             if bool_decide (cfg !!! "CERT_BASE_DIR" = "")
             then dnsproxy.defaultCertsBaseDir else cfg !!! "CERT_BASE_DIR";
           dnsproxy.tlsCert := cfg !!! "TLS_CERT";
           dnsproxy.tlsKey := cfg !!! "TLS_KEY" |}.
Proof.
  unfold dnsproxy.main. repeat case_bool_decide; try done; by intros [= <-].
Qed.

(** X10.  A value of CERT_DNS_ALLOWLIST made of commas and spaces only passes
    the start-up check of [main], which tests the raw value, and leaves an
    empty allowlist: the server starts and answers every request for a
    certificate with 401 or 403, without any lookup or file read. *)
Theorem blank_allowlist_denies_everyone (cfg : gmap string string) :
  cfg !!! "API_KEY" <> "" ->
  cfg !!! "CERT_BEARER_TOKEN" <> "" ->
  cfg !!! "CERT_DNS_ALLOWLIST" <> "" ->
  onlyCommasAndSpaces (cfg !!! "CERT_DNS_ALLOWLIST") = true ->
  exists srv,
    dnsproxy.main cfg = inr srv /\ dnsproxy.certDNSAllowlist srv = [] /\
    forall r w,
      let run := CertsHandler (dnsproxy.certBearerToken srv)
                   (dnsproxy.certDNSAllowlist srv) (dnsproxy.certsBaseDir srv) r w in
      http.StatusCode run.1 ∈ [401; 403]
      /\ Forall (fun e => isDNSLookup e = false /\ isFileRead e = false) run.2.
Proof.
  intros Hkey Htoken Hraw Hblank.
  assert (dnsproxy.splitAllowlist (cfg !!! "CERT_DNS_ALLOWLIST") = []) as Hempty.
  { unfold dnsproxy.splitAllowlist.
    pose proof (Split_bytes _ ","%char _ Hblank) as Hbytes.
    destruct (Split_pieces ","%char (cfg !!! "CERT_DNS_ALLOWLIST")) as [Hno _].
    induction (strings'.Split (cfg !!! "CERT_DNS_ALLOWLIST") ",") as [|p ps IH]; [done|].
    apply Forall_cons in Hbytes as [Hp Hps]. apply Forall_cons in Hno as [Hnp Hnps].
    cbn [foldl]. rewrite foldl_allowlistStep, IH by done.
    unfold dnsproxy.allowlistStep.
    rewrite TrimSpace_allSpace by by apply commas_and_spaces_without_comma.
    by rewrite bool_decide_eq_false_2 by (intros Hne; by destruct Hne). }
  eexists. split; [|split].
  - unfold dnsproxy.main. by rewrite !bool_decide_eq_false_2 by done.
  - done.
  - intros r w. cbn [dnsproxy.certDNSAllowlist]. rewrite Hempty.
    apply CertsHandler_empty_allowlist.
Qed.

(** X11.  [main] starts the server exactly when API_KEY, CERT_BEARER_TOKEN
    and CERT_DNS_ALLOWLIST are present and not empty.  A started server has
    non-empty secrets and a non-empty certificate root, so a request that
    presents no Authorization header, or "Bearer " with an empty secret, is
    answered 401 at both endpoints. *)
Theorem started_server_has_secrets (cfg : gmap string string) :
  ((exists srv, dnsproxy.main cfg = inr srv) <->
   cfg !!! "API_KEY" <> "" /\ cfg !!! "CERT_BEARER_TOKEN" <> "" /\
   cfg !!! "CERT_DNS_ALLOWLIST" <> "")
  /\ forall srv,
       dnsproxy.main cfg = inr srv ->
       dnsproxy.apiKey srv <> "" /\ dnsproxy.certBearerToken srv <> "" /\
       dnsproxy.certsBaseDir srv <> "" /\
       forall r w host body,
         http.Get (http.ReqHeader r) "Authorization" = ""
         \/ http.Get (http.ReqHeader r) "Authorization" = "Bearer " ->
         CertsHandler (dnsproxy.certBearerToken srv) (dnsproxy.certDNSAllowlist srv)
           (dnsproxy.certsBaseDir srv) r w
         = (http.Error "Unauthorized" http.StatusUnauthorized, [])
         /\ dnsproxy.setTxtHandler (dnsproxy.apiKey srv) host r body
            = (http.Error "Unauthorized" http.StatusUnauthorized, []).
Proof.
  split.
  - split.
    + intros [srv Hmain]. apply main_inv in Hmain. tauto.
    + intros (Hkey & Htoken & Hraw). eexists. unfold dnsproxy.main.
      by rewrite !bool_decide_eq_false_2 by done.
  - intros srv Hmain. apply main_inv in Hmain as (Hkey & Htoken & Hraw & ->).
    cbn [dnsproxy.apiKey dnsproxy.certBearerToken dnsproxy.certsBaseDir
         dnsproxy.certDNSAllowlist].
    split; [done|]. split; [done|]. split.
    { case_bool_decide; done. }
    intros r w host body Hhdr.
    assert (forall secret, secret <> "" ->
              http.Get (http.ReqHeader r) "Authorization" <> "Bearer " +:+ secret) as Hne.
    { intros secret Hsecret Heq. destruct Hhdr as [Hhdr|Hhdr]; rewrite Hhdr in Heq.
      - done.
      - destruct secret; [done|]. simpl in Heq. congruence. }
    split.
    + unfold CertsHandler. by rewrite bool_decide_eq_true_2 by by apply Hne.
    + unfold dnsproxy.setTxtHandler. by rewrite bool_decide_eq_true_2 by by apply Hne.
Qed.

(** X12.  The /set_txt handler runs the command-line tool at most once, and
    exactly when the request carries "Bearer " with the API key and its body
    decodes to three non-empty fields; the fields are then passed as three
    separate arguments after --domain, --key and --value. *)
Theorem set_txt_runs_cli_iff (apiKey : string) (host : dnsproxy.Host)
    (r : http.Request) (body : string) (argv : list string) :
  let run := dnsproxy.setTxtHandler apiKey host r body in
  (dnsproxy.CliRun argv ∈ run.2 <->
   http.Get (http.ReqHeader r) "Authorization" = "Bearer " +:+ apiKey /\
   exists req,
     dnsproxy.Decode body = inl req /\
     dnsproxy.Domain req <> "" /\ dnsproxy.Key req <> "" /\ dnsproxy.Value req <> "" /\
     argv = ["/usr/local/bin/dns-proxy-cli"; "set-txt";
             "--domain"; dnsproxy.Domain req; "--key"; dnsproxy.Key req;
             "--value"; dnsproxy.Value req])
  /\ (run.2 = [] \/ exists argv' rest,
        run.2 = dnsproxy.CliRun argv' :: rest /\
        Forall (fun e => forall a, e <> dnsproxy.CliRun a) rest).
Proof.
  cbv zeta. unfold dnsproxy.setTxtHandler.
  case_bool_decide as Hauth.
  { split; [|by left]. cbn [snd]. rewrite elem_of_nil. split; [done|]. by intros [? _]. }
  destruct (dnsproxy.Decode body) as [req|err] eqn:Hdec.
  2:{ split; [|by left]. cbn [snd]. rewrite elem_of_nil.
      split; [done|]. by intros (_ & ? & ? & _). }
  case_bool_decide as Hd; cbn [orb].
  { split; [|by left]. cbn [snd]. rewrite elem_of_nil.
    split; [done|]. intros (_ & ? & [= <-] & ? & _). done. }
  case_bool_decide as Hk; cbn [orb].
  { split; [|by left]. cbn [snd]. rewrite elem_of_nil.
    split; [done|]. intros (_ & ? & [= <-] & ? & ? & _). done. }
  case_bool_decide as Hv.
  { split; [|by left]. cbn [snd]. rewrite elem_of_nil.
    split; [done|]. intros (_ & ? & [= <-] & ? & ? & ? & _). done. }
  destruct (dnsproxy.CombinedOutput host _) as [output [err|]]; cbn [snd].
  - split.
    + rewrite !elem_of_cons, elem_of_nil. split.
      * intros [[= ->]|[?|?]]; try done. split; [done|]. by exists req.
      * intros (_ & ? & [= <-] & _ & _ & _ & ->). by left.
    + right. eexists _, _. split; [done|]. apply Forall_singleton. done.
  - split.
    + rewrite !elem_of_cons, elem_of_nil. split.
      * intros [[= ->]|?]; try done. split; [done|]. by exists req.
      * intros (_ & ? & [= <-] & _ & _ & _ & ->). by left.
    + right. eexists _, _. split; [done|]. by constructor.
Qed.

Lemma Bearer_inj a b : "Bearer " +:+ a = "Bearer " +:+ b -> a = b.
Proof. simpl. by intros [= ->]. Qed.

(** X13.  The two endpoints keep separate credentials: when the API key and
    the certificate token differ, no request passes the credential check of
    both handlers; one of them answers 401. *)
Theorem endpoint_credentials_are_separate (apiKey certBearerToken : string)
    (dnsAllowlist : list string) (certsBaseDir : string) (host : dnsproxy.Host)
    (r : http.Request) (w : World) (body : string) :
  apiKey <> certBearerToken ->
  http.StatusCode (CertsHandler certBearerToken dnsAllowlist certsBaseDir r w).1 = 401
  \/ http.StatusCode (dnsproxy.setTxtHandler apiKey host r body).1 = 401.
Proof.
  intros Hdiff.
  destruct (decide (http.Get (http.ReqHeader r) "Authorization"
                    = "Bearer " +:+ certBearerToken)) as [Hcert|Hcert].
  - right. unfold dnsproxy.setTxtHandler. rewrite bool_decide_eq_true_2; [done|].
    rewrite Hcert. intros Heq. apply Bearer_inj in Heq. by destruct Hdiff.
  - left. unfold CertsHandler. by rewrite bool_decide_eq_true_2.
Qed.

End main_handlers.


(** ** Properties of [loadToken] *)

Section token_facts.
Context `{!strings'.UnicodeSpace}.

#[local] Arguments strings.Contains : simpl never.
#[local] Arguments strings.Index : simpl never.
#[local] Arguments strings.SplitN : simpl never.

Lemma TrimSpace_String c rest :
  strings'.TrimSpace (String c rest)
  = if negb (strings'.isASCIIByte c) then strings'.TrimFuncIsSpace (String c rest)
    else if strings'.asciiSpace c then strings'.TrimSpace rest
    else strings'.trimStop (String c rest).
Proof. done. Qed.

#[local] Arguments strings'.TrimSpace : simpl never.

Lemma endsVisible_app s t : t <> "" -> endsVisible (s +:+ t) = endsVisible t.
Proof.
  intros Ht. induction s as [|c s IH]; [done|].
  change (String c s +:+ t) with (String c (s +:+ t)).
  rewrite endsVisible_cons; [done|]. destruct s; [by destruct t|done].
Qed.

Lemma app_nonempty_r s t : t <> "" -> s +:+ t <> "".
Proof. destruct s; [done|]. by destruct t. Qed.

Lemma TrimSpace_skip pre s :
  allSpace pre = true -> strings'.TrimSpace (pre +:+ s) = strings'.TrimSpace s.
Proof.
  induction pre as [|a pre IH]; [done|]. simpl.
  intros [Ha Hpre]%andb_true_iff. rewrite TrimSpace_String.
  rewrite (asciiSpace_isASCII a Ha), Ha. by apply IH.
Qed.

Lemma TrimSpace_ascii_isASCII s : isASCII s = true -> isASCII (strings'.TrimSpace s) = true.
Proof.
  intros Hs. destruct (TrimSpace_ascii s Hs) as (pre & post & _ & _ & Heq & _).
  rewrite Heq, !isASCII_app in Hs.
  by apply andb_true_iff in Hs as [_ [? _]%andb_true_iff].
Qed.

Lemma HasPrefix_head c s d : c <> d -> strings.HasPrefix (String c s) (String d "") = false.
Proof.
  intros Hne. destruct (strings.HasPrefix _ _) eqn:E; [|done].
  apply HasPrefix_spec in E as [rest E]. simpl in E. congruence.
Qed.

(** The two pieces of a line with an equals sign after a key without one. *)
Lemma SplitN_assignment key value :
  noByte "=" key = true ->
  strings.SplitN (key +:+ "=" +:+ value) "=" 2 = [key; value].
Proof.
  intros Hkey. apply SplitN2_cut. split; [done|].
  rewrite noByte_Contains in Hkey. by apply negb_true_iff in Hkey.
Qed.

(** A line without equals sign is one piece. *)
Lemma SplitN_no_assignment line :
  noByte "=" line = true -> strings.SplitN line "=" 2 = [line].
Proof.
  intros Hno. destruct (SplitN2_length line "="%char) as [Hlen|Hone]; [|done].
  destruct (strings.SplitN line "=" 2) as [|d [|f [|]]] eqn:Hparts; try done.
  apply SplitN2_cut in Hparts as [-> _].
  rewrite noByte_app in Hno. simpl in Hno. by rewrite andb_false_r in Hno.
Qed.

(** An assignment of the key sets [apiKey] to the value, trimmed. *)
Lemma scanLine_assignment apiKey pre mid rhs post :
  allSpace pre = true -> allSpace mid = true -> allSpace post = true ->
  endsVisible ("=" +:+ rhs) = true ->
  tokenfile.scanLine apiKey
    (pre +:+ "DNS_RESOLVER_API_TOKEN" +:+ mid +:+ "=" +:+ rhs +:+ post)
  = strings'.TrimSpace rhs.
Proof.
  intros Hpre Hmid Hpost Hend. unfold tokenfile.scanLine.
  assert (strings'.TrimSpace
            (pre +:+ "DNS_RESOLVER_API_TOKEN" +:+ mid +:+ "=" +:+ rhs +:+ post)
          = ("DNS_RESOLVER_API_TOKEN" +:+ mid) +:+ "=" +:+ rhs) as ->.
  { rewrite <- (TrimSpace_pad pre (("DNS_RESOLVER_API_TOKEN" +:+ mid) +:+ "=" +:+ rhs) post);
      [by rewrite !app_assoc'|done| |done].
    unfold trimmed. rewrite app_assoc'. apply andb_true_iff. split; [done|].
    rewrite (endsVisible_app "DNS_RESOLVER_API_TOKEN") by by apply app_nonempty_r.
    by rewrite (endsVisible_app mid). }
  rewrite SplitN_assignment.
  2:{ rewrite noByte_app, (allSpace_noByte "="%char mid) by done. by vm_compute. }
  rewrite bool_decide_eq_false_2 by done.
  assert (strings.HasPrefix (("DNS_RESOLVER_API_TOKEN" +:+ mid) +:+ "=" +:+ rhs) "#"
          = false) as ->.
  { exact (HasPrefix_head "D"%char _ "#"%char ltac:(done)). }
  cbn [orb length lookup_total list_lookup_total].
  rewrite bool_decide_eq_true_2 by done. cbn [andb].
  assert (strings'.TrimSpace ("DNS_RESOLVER_API_TOKEN" +:+ mid)
          = "DNS_RESOLVER_API_TOKEN") as ->.
  { exact (TrimSpace_pad "" "DNS_RESOLVER_API_TOKEN" mid eq_refl eq_refl Hmid). }
  by rewrite bool_decide_eq_true_2.
Qed.

Lemma foldl_scanLine_snoc apiKey lines text :
  foldl tokenfile.scanLine apiKey (lines ++ [text])
  = tokenfile.scanLine (foldl tokenfile.scanLine apiKey lines) text.
Proof. by rewrite foldl_app. Qed.

(** X14.  The last assignment decides: when the last line of the token file
    assigns DNS_RESOLVER_API_TOKEN, with any ASCII spaces around the key,
    the equals sign and the value, [loadToken] returns the value, whatever
    the lines before it are.  The value may hold equals signs and inner
    spaces; its first and last bytes are visible. *)
Theorem last_assignment_wins (lines : list string) (pre mid1 mid2 value post : string) :
  allSpace pre = true -> allSpace mid1 = true -> allSpace mid2 = true ->
  allSpace post = true -> trimmed value = true ->
  tokenfile.loadToken
    (inr (lines ++ [pre +:+ "DNS_RESOLVER_API_TOKEN" +:+ mid1 +:+ "="
                      +:+ mid2 +:+ value +:+ post])%list)
  = inl value.
Proof.
  intros Hpre Hmid1 Hmid2 Hpost Hvalue. unfold tokenfile.loadToken.
  assert (value <> "") as Hne by by apply trimmed_nonempty.
  replace (pre +:+ "DNS_RESOLVER_API_TOKEN" +:+ mid1 +:+ "=" +:+ mid2 +:+ value +:+ post)
    with (pre +:+ "DNS_RESOLVER_API_TOKEN" +:+ mid1 +:+ "=" +:+ (mid2 +:+ value) +:+ post)
    by by rewrite !app_assoc'.
  rewrite foldl_scanLine_snoc, scanLine_assignment; try done.
  - pose proof (TrimSpace_pad mid2 value "" Hmid2 Hvalue eq_refl) as Hpad.
    rewrite app_empty_r in Hpad. rewrite Hpad.
    by rewrite bool_decide_eq_false_2.
  - apply andb_true_iff in Hvalue as [_ He].
    change ("=" +:+ mid2 +:+ value) with (String "=" mid2 +:+ value).
    by rewrite endsVisible_app.
Qed.

(** X15.  A later assignment of an empty value withdraws the token: when
    the last line of the file assigns nothing, or spaces only, to
    DNS_RESOLVER_API_TOKEN, [loadToken] ends the process with "not found",
    even if an earlier line holds a token. *)
Theorem empty_assignment_withdraws_token (lines : list string) (pre mid post : string) :
  allSpace pre = true -> allSpace mid = true -> allSpace post = true ->
  tokenfile.loadToken
    (inr (lines ++ [pre +:+ "DNS_RESOLVER_API_TOKEN" +:+ mid +:+ "=" +:+ post])%list)
  = inr tokenfile.TokenNotFound.
Proof.
  intros Hpre Hmid Hpost. unfold tokenfile.loadToken.
  rewrite foldl_scanLine_snoc.
  change (pre +:+ "DNS_RESOLVER_API_TOKEN" +:+ mid +:+ "=" +:+ post)
    with (pre +:+ "DNS_RESOLVER_API_TOKEN" +:+ mid +:+ "=" +:+ "" +:+ post).
  by rewrite scanLine_assignment.
Qed.

(** A comment keeps its mark when trimmed. *)
Lemma TrimSpace_comment pre rest :
  allSpace pre = true -> isASCII rest = true ->
  strings.HasPrefix (strings'.TrimSpace (pre +:+ "#" +:+ rest)) "#" = true.
Proof.
  intros Hpre Hrest. rewrite TrimSpace_skip by done.
  change ("#" +:+ rest) with (String "#" rest). rewrite TrimSpace_String.
  cbn [negb]. change (strings'.isASCIIByte "#") with true.
  change (strings'.asciiSpace "#") with false. cbn [negb].
  unfold strings'.trimStop.
  destruct (scanStop_ascii (String "#" rest)) as (post & Hpost & Heq & Huni & Hend);
    [done|].
  destruct (strings'.scanStop (String "#" rest)) as [kept unicode].
  cbn [fst snd] in *. subst unicode.
  destruct kept as [|k kept].
  - simpl in Heq. subst post. done.
  - simpl in Heq. injection Heq as <- _. apply HasPrefix_spec. by exists kept.
Qed.

(** A line that is passed over leaves [apiKey] as it is. *)
Lemma scanLine_passedOver apiKey text :
  passedOver text -> tokenfile.scanLine apiKey text = apiKey.
Proof.
  intros [Hascii [Hblank|[(pre & rest & Hpre & ->)|Hno]]]; unfold tokenfile.scanLine.
  - by rewrite TrimSpace_allSpace.
  - rewrite !isASCII_app in Hascii.
    apply andb_true_iff in Hascii as [_ [_ Hrest]%andb_true_iff].
    rewrite TrimSpace_comment by done. by rewrite orb_true_r.
  - destruct (bool_decide _ || _); [done|].
    rewrite SplitN_no_assignment by by apply TrimSpace_ascii_noByte.
    done.
Qed.

(** X16.  Blank lines, comment lines (a number sign after any ASCII spaces)
    and lines without an equals sign count for nothing: with such an ASCII
    line put anywhere in the file, or taken out of it, [loadToken] gives the
    same result. *)
Theorem passed_over_lines_are_ignored (before after : list string) (text : string) :
  passedOver text ->
  tokenfile.loadToken (inr (before ++ text :: after)%list)
  = tokenfile.loadToken (inr (before ++ after)%list).
Proof.
  intros Hskip. unfold tokenfile.loadToken.
  rewrite !foldl_app. cbn [foldl]. by rewrite scanLine_passedOver.
Qed.

(** On ASCII lines, [apiKey] stays empty or trimmed. *)
Lemma scanLine_trimmed apiKey text :
  isASCII text = true ->
  apiKey = "" \/ trimmed apiKey = true ->
  tokenfile.scanLine apiKey text = ""
  \/ trimmed (tokenfile.scanLine apiKey text) = true.
Proof.
  intros Htext Hkey. unfold tokenfile.scanLine.
  destruct (bool_decide _ || _); [done|].
  pose proof (TrimSpace_ascii_isASCII text Htext) as Hline.
  destruct (SplitN2_length (strings'.TrimSpace text) "="%char) as [Hlen|Hone].
  - destruct (strings.SplitN (strings'.TrimSpace text) "=" 2) as [|d [|f [|]]] eqn:Hparts;
      try done.
    apply SplitN2_cut in Hparts as [Hcut _].
    rewrite Hcut, !isASCII_app in Hline.
    apply andb_true_iff in Hline as [_ Hf]. simpl in Hf.
    destruct (bool_decide _ && _); [|done].
    cbn [lookup_total list_lookup_total].
    by destruct (TrimSpace_ascii f Hf) as (_ & _ & _ & _ & _ & Hres).
  - rewrite Hone. cbn [length]. by rewrite bool_decide_eq_false_2 by done.
Qed.

(** X17.  A token that [loadToken] returns is never empty, and when the
    lines of the file are ASCII its first and last bytes are visible: the
    token has no space, tab or carriage return at either end. *)
Theorem loaded_token_is_trimmed (file : string + list string) (token : string) :
  tokenfile.loadToken file = inl token ->
  token <> ""
  /\ (forall lines, file = inr lines ->
                    Forall (fun text => isASCII text = true) lines ->
                    trimmed token = true).
Proof.
  unfold tokenfile.loadToken. destruct file as [err|lines]; [done|].
  case_bool_decide as Hne; [done|]. intros [= <-]. split; [done|].
  intros lines' [= <-] Hascii.
  assert (forall apiKey, apiKey = "" \/ trimmed apiKey = true ->
            foldl tokenfile.scanLine apiKey lines = ""
            \/ trimmed (foldl tokenfile.scanLine apiKey lines) = true) as Hinv.
  { clear Hne. induction Hascii as [|text rest Htext _ IH]; intros apiKey Hkey; [done|].
    cbn [foldl]. apply IH. by apply scanLine_trimmed. }
  destruct (Hinv "") as [?|?]; [by left|done|done].
Qed.

End token_facts.


(** ** The further properties on sample inputs *)

Lemma peer_without_port_is_403_witness :
  demo.handler demo.dnsAllowlist
    (demo.request "GET" "/certs/example.org/fullchain.pem" "@" (Some "Bearer s3cret"))
    demo.world
  = (http.Error "Forbidden" http.StatusForbidden,
     [EvLog (LogCannotParse "@"
               {| net.Err := "missing port in address"; net.Addr := "@" |})]).
Proof.
  apply (@peer_without_port_is_403 strings.asciiFolding); by vm_compute.
Defined.

Lemma fcrdns_allowlist_is_a_set_witness :
  (@isAllowedByFCrDNS strings.asciiFolding "203.0.113.5"
     ["other.example.com"; "client.example.com"; "client.example.com"] demo.world).1
  = true.
Proof.
  apply (proj1 (@fcrdns_allowlist_is_a_set strings.asciiFolding demo.world "203.0.113.5"
                  demo.dnsAllowlist
                  ["other.example.com"; "client.example.com"; "client.example.com"]
                  ltac:(intros x; unfold demo.dnsAllowlist;
                        rewrite !elem_of_cons, elem_of_nil; tauto))).
  by vm_compute.
Defined.

Lemma dot_domain_reads_the_root_witness :
  EvReadFile "/etc/letsencrypt/live/fullchain.pem"
  ∈ (demo.handler demo.dnsAllowlist (demo.get "/certs/./fullchain.pem") demo.world).2.
Proof.
  exact (proj2 (@dot_domain_reads_the_root strings.asciiFolding demo.bearerToken
                  demo.dnsAllowlist demo.certsBaseDir _ demo.world _ _ "fullchain.pem"
                  (demo_authorized "/certs/./fullchain.pem") eq_refl eq_refl)).
Defined.

Lemma allowlist_round_trip_witness :
  @dnsproxy.splitAllowlist strings'.asciiText "a.example.com, b.example.com"
  = ["a.example.com"; "b.example.com"].
Proof.
  apply (@allowlist_round_trip strings'.asciiText
           ["a.example.com"; " b.example.com"] ["a.example.com"; "b.example.com"]).
  - apply Forall2_cons. split; [by exists "", ""|].
    apply Forall2_cons. split; [by exists " ", ""|]. by apply Forall2_nil.
  - repeat apply Forall_cons_2; try apply Forall_nil_2; by vm_compute.
Defined.

Lemma blank_allowlist_denies_everyone_witness :
  exists srv,
    @dnsproxy.main strings'.asciiText sample.blankAllowlistConfig = inr srv /\
    dnsproxy.certDNSAllowlist srv = [] /\
    forall r w,
      let run := @CertsHandler strings.asciiFolding (dnsproxy.certBearerToken srv)
                   (dnsproxy.certDNSAllowlist srv) (dnsproxy.certsBaseDir srv) r w in
      http.StatusCode run.1 ∈ [401; 403]
      /\ Forall (fun e => isDNSLookup e = false /\ isFileRead e = false) run.2.
Proof.
  apply (@blank_allowlist_denies_everyone strings'.asciiText strings.asciiFolding
           sample.blankAllowlistConfig); by vm_compute.
Defined.

Lemma endpoint_credentials_are_separate_witness :
  http.StatusCode
    (demo.handler demo.dnsAllowlist (demo.get "/certs/example.org/fullchain.pem")
       demo.world).1 = 401
  \/ http.StatusCode
       (@dnsproxy.setTxtHandler sample.refusing "k3y" sample.quietHost
          (demo.get "/certs/example.org/fullchain.pem") "{}").1 = 401.
Proof.
  by apply (@endpoint_credentials_are_separate strings.asciiFolding sample.refusing
              "k3y" demo.bearerToken).
Defined.

Lemma last_assignment_wins_witness :
  @tokenfile.loadToken strings'.asciiText (inr sample.tokenLines) = inl "a=b c".
Proof.
  apply (@last_assignment_wins strings'.asciiText
           ["# dns-proxy-api"; "DNS_RESOLVER_API_TOKEN=old"] " " " " " " "a=b c" " ");
    by vm_compute.
Defined.

Lemma empty_assignment_withdraws_token_witness :
  @tokenfile.loadToken strings'.asciiText
    (inr ["DNS_RESOLVER_API_TOKEN=old"; "DNS_RESOLVER_API_TOKEN= "])
  = inr tokenfile.TokenNotFound.
Proof.
  apply (@empty_assignment_withdraws_token strings'.asciiText
           ["DNS_RESOLVER_API_TOKEN=old"] "" "" " "); by vm_compute.
Defined.

Lemma passed_over_lines_are_ignored_witness :
  @tokenfile.loadToken strings'.asciiText
    (inr ["DNS_RESOLVER_API_TOKEN=old"; "  # DNS_RESOLVER_API_TOKEN=new"])
  = @tokenfile.loadToken strings'.asciiText (inr ["DNS_RESOLVER_API_TOKEN=old"]).
Proof.
  apply (@passed_over_lines_are_ignored strings'.asciiText
           ["DNS_RESOLVER_API_TOKEN=old"] [] "  # DNS_RESOLVER_API_TOKEN=new").
  split; [by vm_compute|]. right; left.
  by exists "  ", " DNS_RESOLVER_API_TOKEN=new".
Defined.

Lemma loaded_token_is_trimmed_witness :
  "a=b c" <> "" /\ trimmed "a=b c" = true.
Proof.
  destruct (@loaded_token_is_trimmed strings'.asciiText (inr sample.tokenLines) "a=b c")
    as [Hne Htrim]; [by vm_compute|].
  split; [exact Hne|]. apply (Htrim sample.tokenLines eq_refl).
  repeat apply Forall_cons_2; try apply Forall_nil_2; by vm_compute.
Defined.
